(** * GD evaluation front end: the two context providers

    A shallow embedding of [src/context/AuthContext.tsx], which holds the
    [AuthProvider] (current user, token life cycle) and the [GDProvider]
    (discussion sessions, evaluations, score aggregation), followed by the
    properties the design document states about them.

    Conventions of the embedding.
    - A JavaScript [number] holding a score is an exact rational ([Q]); records
      of scores are compared criterion by criterion with [Qeq].  Every division
      of the source is by a positive constant or by a length tested positive,
      so the totality of [Qdiv] is never relied upon.
    - A string is a [string]; [===] on strings is [String.eqb].
    - An optional field ([x?: string], or a nullable column of the backend) is
      an [option string]; JavaScript truthiness of such a value is [truthy].
    - A [Date] is the text it was built from, or [InvalidDate].
    - The [useState] cells of both providers, the [authToken] key of
      [localStorage] and the requests sent are the fields of [Store]; an
      [async] method is a transformer of the store that either returns or
      throws; what the backend answers is an argument of the method.
    - [console] output is left out. *)

From Stdlib Require Import List String Bool Arith ZArith QArith Lia Lqa.
Import ListNotations.

Local Open Scope string_scope.
Local Open Scope list_scope.
Local Open Scope Q_scope.

(** ** Data model *)

(** Modelled from the spec: [UserRole], which the source imports from
    [@/types/supabase]; the design document gives a role as one of student
    and instructor.  The role of an evaluator has the same two values. *)
Inductive UserRole : Type := student | instructor.

Definition UserRole_eqb (a b : UserRole) : bool :=
  match a, b with
  | student, student | instructor, instructor => true
  | _, _ => false
  end.

Inductive Date : Type :=
| InvalidDate
| DateOf (text : string).

(** Modelled from the spec: [EvaluationCriteria], which the source imports
    from [@/types]; the five numeric fields are those [calculateScores]
    reads. *)
Record EvaluationCriteria : Type := mkCriteria {
  articulation : Q;
  relevance : Q;
  leadership : Q;
  nonVerbalCommunication : Q;
  impression : Q
}.

(** Modelled from the spec: [GDSession], which the source imports from
    [@/types]; the fields are those the source fills in when it formats a
    session.  [session_id] and [session_createdAt] are its [id] and
    [createdAt]. *)
Record GDSession : Type := mkSession {
  session_id : string;
  topic : string;
  details : string;
  groupName : string;
  groupNumber : Z;
  date : Date;
  participants : list string;
  evaluators : list string;
  createdBy : string;
  session_createdAt : Date
}.

(** Modelled from the spec: [Evaluation], which the source imports from
    [@/types]; the fields are those the source fills in when it formats an
    evaluation.  [evaluation_id] and [evaluation_createdAt] are its [id] and
    [createdAt].  [evaluatorId] is declared a string and holds whatever the
    record of the backend had under [evaluator_id], which may be nothing. *)
Record Evaluation : Type := mkEvaluation {
  evaluation_id : string;
  gdSessionId : string;
  studentId : string;
  evaluatorId : option string;
  evaluatorRole : UserRole;
  criteria : EvaluationCriteria;
  evaluation_createdAt : Date
}.

Record Scores : Type := mkScores {
  peerAverage : EvaluationCriteria;
  instructorScores : EvaluationCriteria;
  finalScores : EvaluationCriteria
}.

(** The five criteria, to speak of "each criterion". *)
Inductive Criterion : Type :=
| Articulation | Relevance | Leadership | NonVerbalCommunication | Impression.

Definition score (c : Criterion) (x : EvaluationCriteria) : Q :=
  match c with
  | Articulation => articulation x
  | Relevance => relevance x
  | Leadership => leadership x
  | NonVerbalCommunication => nonVerbalCommunication x
  | Impression => impression x
  end.

(** Two score records agree when they agree on each criterion. *)
Definition criteria_eq (x y : EvaluationCriteria) : Prop :=
  forall c : Criterion, score c x == score c y.

(** ** Score aggregation *)

(** [Array.prototype.reduce] with an initial value. *)
Definition reduce {A B : Type} (f : B -> A -> B) (init : B) (l : list A) : B :=
  fold_left f l init.

Definition emptyCriteria : EvaluationCriteria :=
  {| articulation := 0; relevance := 0; leadership := 0;
     nonVerbalCommunication := 0; impression := 0 |}.

(** [array.length] as a number. *)
Definition len {A : Type} (l : list A) : Q := inject_Z (Z.of_nat (List.length l)).

Definition sessionEvaluationsOf (evaluations : list Evaluation)
    (sessionId studentId' : string) : list Evaluation :=
  filter (fun e => String.eqb (gdSessionId e) sessionId
                   && String.eqb (studentId e) studentId') evaluations.

Definition peersOf (l : list Evaluation) : list Evaluation :=
  filter (fun e => UserRole_eqb (evaluatorRole e) student) l.

Definition instructorsOf (l : list Evaluation) : list Evaluation :=
  filter (fun e => UserRole_eqb (evaluatorRole e) instructor) l.

Definition calculateScores (evaluations : list Evaluation)
    (sessionId studentId' : string) : Scores :=
  let sessionEvaluations := sessionEvaluationsOf evaluations sessionId studentId' in
  if Nat.eqb (List.length sessionEvaluations) 0 then
    {| peerAverage := emptyCriteria;
       instructorScores := emptyCriteria;
       finalScores := emptyCriteria |}
  else
    let peerEvaluations := peersOf sessionEvaluations in
    let instructorEvaluations := instructorsOf sessionEvaluations in
    let peerAverage :=
      if Nat.ltb 0 (List.length peerEvaluations) then
        {| articulation :=
             reduce (fun sum e => sum + articulation (criteria e)) 0 peerEvaluations
             / len peerEvaluations;
           relevance :=
             reduce (fun sum e => sum + relevance (criteria e)) 0 peerEvaluations
             / len peerEvaluations;
           leadership :=
             reduce (fun sum e => sum + leadership (criteria e)) 0 peerEvaluations
             / len peerEvaluations;
           nonVerbalCommunication :=
             reduce (fun sum e => sum + nonVerbalCommunication (criteria e)) 0
               peerEvaluations
             / len peerEvaluations;
           impression :=
             reduce (fun sum e => sum + impression (criteria e)) 0 peerEvaluations
             / len peerEvaluations |}
      else emptyCriteria in
    let instructorScores :=
      if Nat.ltb 0 (List.length instructorEvaluations) then
        match nth_error instructorEvaluations 0 with
        | Some e => criteria e
        | None => emptyCriteria
        end
      else emptyCriteria in
    let finalScores :=
      {| articulation :=
           (articulation peerAverage + articulation instructorScores) / 2;
         relevance := (relevance peerAverage + relevance instructorScores) / 2;
         leadership := (leadership peerAverage + leadership instructorScores) / 2;
         nonVerbalCommunication :=
           (nonVerbalCommunication peerAverage
            + nonVerbalCommunication instructorScores) / 2;
         impression := (impression peerAverage + impression instructorScores) / 2 |} in
    {| peerAverage := peerAverage;
       instructorScores := instructorScores;
       finalScores := finalScores |}.

(** The arithmetic mean as the design document words it: the sum of the
    values over their number. *)
Definition Qsum (l : list Q) : Q := fold_right Qplus 0 l.

Definition mean (l : list Q) : Q := Qsum l / len l.

(** ** Users and the records the backend sends *)

(** [interface User]; [user_id], [user_name], [user_email], [user_role] and
    [user_createdAt] are its [id], [name], [email], [role] and [createdAt]. *)
Record User : Type := mkUser {
  user_id : string;
  user_name : string;
  user_email : string;
  user_role : UserRole;
  department : option string;
  section : option string;
  year : option string;
  rollNumber : option string;
  designation : option string;
  user_createdAt : Date
}.

(** Modelled from the spec: [ProfileRow], which the source imports from
    [@/types/supabase]: a user record as the backend sends it, with the
    fields [profileToUser] reads, nullable columns as options. *)
Record ProfileRow : Type := mkProfileRow {
  profile_id : string;
  profile_name : string;
  profile_email : string;
  profile_role : UserRole;
  profile_department : option string;
  profile_section : option string;
  profile_year : option string;
  roll_number : option string;
  profile_designation : option string;
  profile_created_at : string
}.

(** What [/login] and [/register] answer: the profile and a token. *)
Record LoginData : Type := mkLoginData {
  profile : ProfileRow;
  token : string
}.

Record RegisterData : Type := mkRegisterData {
  reg_name : string;
  reg_email : string;
  reg_password : string;
  reg_role : UserRole;
  reg_rollNumber : option string;
  reg_department : option string;
  reg_section : option string;
  reg_year : option string;
  reg_designation : option string
}.

Record UpdateProfileData : Type := mkUpdateProfileData {
  upd_name : option string;
  upd_email : option string;
  upd_rollNumber : option string;
  upd_department : option string;
  upd_section : option string;
  upd_year : option string;
  upd_designation : option string
}.

(** A session as [/sessions] and [/create-session] send it; the source
    types it [any], and the fields it reads are given here the types of the
    [GDSession] they fill, the two lists being nullable. *)
Record RawSession : Type := mkRawSession {
  raw_id : string;
  raw_topic : string;
  raw_details : string;
  group_name : string;
  group_number : Z;
  raw_date : string;
  raw_participants : option (list string);
  raw_evaluators : option (list string);
  created_by : string;
  raw_created_at : string
}.

(** An evaluation as [/evaluations] and [/submit-evaluation] send it; the
    source types it [any].  The fields it reads are given here the types of
    the [Evaluation] they fill, except [evaluator_id], which the record may
    lack: [None] is the [undefined] that reading the absent field yields.
    [evaluator_role] stands for whatever the record itself says about the
    role of its evaluator; the source reads none of it. *)
Record RawEvaluation : Type := mkRawEvaluation {
  eval_id : string;
  gd_session_id : string;
  student_id : string;
  evaluator_id : option string;
  evaluator_role : option string;
  raw_articulation : Q;
  raw_relevance : Q;
  raw_leadership : Q;
  non_verbal_communication : Q;
  raw_impression : Q;
  eval_created_at : string
}.

(** [Omit<GDSession, "id" | "createdAt" | "createdBy">] *)
Record SessionData : Type := mkSessionData {
  data_topic : string;
  data_details : string;
  data_groupName : string;
  data_groupNumber : Z;
  data_date : Date;
  data_participants : list string;
  data_evaluators : list string
}.

(** The body of a non-2xx answer: [{ error?: string }]. *)
Record ErrorData : Type := mkErrorData { error : option string }.

(** ** JavaScript values *)

(** [x || fallback] on a string: the empty string is falsy. *)
Definition orString (x fallback : string) : string :=
  if String.eqb x "" then fallback else x.

(** [x || fallback] on a string that may be missing. *)
Definition orDefault (x : option string) (fallback : string) : string :=
  match x with
  | Some s => orString s fallback
  | None => fallback
  end.

(** [x || undefined] *)
Definition orUndefined (x : option string) : option string :=
  match x with
  | Some s => if String.eqb s "" then None else Some s
  | None => None
  end.

(** [x || []] : any array is truthy. *)
Definition orEmpty (x : option (list string)) : list string :=
  match x with
  | Some l => l
  | None => []
  end.

(** The string a truthy value holds, if it is one. *)
Definition truthy (x : option string) : option string := orUndefined x.

(** [new Date(text)] *)
Definition newDate (text : string) : Date := DateOf text.

(** [array.includes(x)] *)
Definition includes (l : list string) (x : string) : bool :=
  existsb (fun y => String.eqb y x) l.

(** ** The network *)

Inductive Request : Type :=
| CheckSessionRequest (bearer : string)
| LoginRequest (email password : string)
| RegisterRequest (data : RegisterData)
| UpdateProfileRequest (bearer : option string) (data : UpdateProfileData)
| SessionsRequest (bearer : string)
| EvaluationsRequest (bearer : string)
| CreateSessionRequest (bearer : option string) (data : SessionData) (isoDate : string)
| SubmitEvaluationRequest (bearer : option string) (gdSessionId studentId : string)
    (criteria : EvaluationCriteria).

(** [response.json()] either yields the value or rejects. *)
Inductive Json (A : Type) : Type :=
| Unparsable (message : string)
| Parsed (value : A).
Arguments Unparsable {A} message.
Arguments Parsed {A} value.

(** A response is 2xx ([response.ok]) with a body of the expected shape, or it
    is not and its body is an [ErrorData]. *)
Inductive Response (A : Type) : Type :=
| Ok (body : Json A)
| NotOk (body : Json ErrorData).
Arguments Ok {A} body.
Arguments NotOk {A} body.

(** [fetch] either rejects (transport failure) or resolves to a response. *)
Inductive Fetch (A : Type) : Type :=
| Rejects (message : string)
| Resolves (response : Response A).
Arguments Rejects {A} message.
Arguments Resolves {A} response.

(** ** State *)

(** The [useState] cells of both providers, the [authToken] key of
    [localStorage], and the requests sent so far (oldest first). *)
Record Store : Type := mkStore {
  user : option User;
  auth_isLoading : bool;
  sessions : list GDSession;
  evaluations : list Evaluation;
  gd_isLoading : bool;
  authToken : option string;
  requests : list Request
}.

Definition with_user (u : option User) (s : Store) : Store :=
  mkStore u (auth_isLoading s) (sessions s) (evaluations s) (gd_isLoading s)
          (authToken s) (requests s).

Definition with_auth_isLoading (b : bool) (s : Store) : Store :=
  mkStore (user s) b (sessions s) (evaluations s) (gd_isLoading s)
          (authToken s) (requests s).

Definition with_sessions (l : list GDSession) (s : Store) : Store :=
  mkStore (user s) (auth_isLoading s) l (evaluations s) (gd_isLoading s)
          (authToken s) (requests s).

Definition with_evaluations (l : list Evaluation) (s : Store) : Store :=
  mkStore (user s) (auth_isLoading s) (sessions s) l (gd_isLoading s)
          (authToken s) (requests s).

Definition with_gd_isLoading (b : bool) (s : Store) : Store :=
  mkStore (user s) (auth_isLoading s) (sessions s) (evaluations s) b
          (authToken s) (requests s).

Definition with_authToken (t : option string) (s : Store) : Store :=
  mkStore (user s) (auth_isLoading s) (sessions s) (evaluations s)
          (gd_isLoading s) t (requests s).

Definition with_requests (l : list Request) (s : Store) : Store :=
  mkStore (user s) (auth_isLoading s) (sessions s) (evaluations s)
          (gd_isLoading s) (authToken s) l.

(** Both providers as they are mounted: no user, the auth provider loading
    until its session check ends, empty collections, and whatever token an
    earlier visit left in [localStorage]. *)
Definition initialStore (stored : option string) : Store :=
  mkStore None true [] [] false stored [].

(** ** Asynchronous methods

    An [async] function run to completion: a state transformer whose result
    is a value or a thrown [Error]. *)

Record Error : Type := mkError { message : string }.

Inductive Completion (A : Type) : Type :=
| Returned (value : A)
| Thrown (e : Error).
Arguments Returned {A} value.
Arguments Thrown {A} e.

Definition Async (A : Type) : Type := Store -> Store * Completion A.

Definition ret {A : Type} (a : A) : Async A := fun s => (s, Returned a).

Definition throw {A : Type} (e : Error) : Async A := fun s => (s, Thrown e).

Definition bind {A B : Type} (m : Async A) (k : A -> Async B) : Async B :=
  fun s =>
    match m s with
    | (s', Returned a) => k a s'
    | (s', Thrown e) => (s', Thrown e)
    end.

(** [try { body } catch (e) { handler e }] *)
Definition tryCatch {A : Type} (body : Async A) (handler : Error -> Async A)
  : Async A :=
  fun s =>
    match body s with
    | (s', Returned a) => (s', Returned a)
    | (s', Thrown e) => handler e s'
    end.

(** [try { body } finally { cleanup }] : the cleanup runs on both exits and
    the completion of the body stands unless the cleanup itself throws. *)
Definition tryFinally {A : Type} (body : Async A) (cleanup : Async unit)
  : Async A :=
  fun s =>
    match body s with
    | (s', c) =>
        match cleanup s' with
        | (s'', Returned _) => (s'', c)
        | (s'', Thrown e) => (s'', Thrown e)
        end
    end.

Declare Scope async_scope.
Delimit Scope async_scope with async.
Notation "x <- m ;; k" := (bind m (fun x => k))
  (at level 61, m at next level, right associativity) : async_scope.
Notation "m ;; k" := (bind m (fun _ => k))
  (at level 61, right associativity) : async_scope.
Local Open Scope async_scope.

(** Reads and writes of the store. *)
Definition get {A : Type} (f : Store -> A) : Async A := fun s => (s, Returned (f s)).

Definition modify (f : Store -> Store) : Async unit := fun s => (f s, Returned tt).

Definition setUser (u : option User) : Async unit := modify (with_user u).

Definition setAuthIsLoading (b : bool) : Async unit := modify (with_auth_isLoading b).

Definition setIsLoading (b : bool) : Async unit := modify (with_gd_isLoading b).

(** [setSessions] and [setEvaluations], given a value or an updater of the
    previous value. *)
Definition setSessions (f : list GDSession -> list GDSession) : Async unit :=
  modify (fun s => with_sessions (f (sessions s)) s).

Definition setEvaluations (f : list Evaluation -> list Evaluation) : Async unit :=
  modify (fun s => with_evaluations (f (evaluations s)) s).

Definition getItem : Async (option string) := get authToken.

Definition setItem (t : string) : Async unit := modify (with_authToken (Some t)).

Definition removeItem : Async unit := modify (with_authToken None).

(** [await fetch(...)] : the request leaves, then the answer comes. *)
Definition fetch {A : Type} (r : Request) (answer : Fetch A) : Async (Response A) :=
  modify (fun s => with_requests (requests s ++ [r]) s) ;;
  match answer with
  | Rejects m => throw (mkError m)
  | Resolves response => ret response
  end.

(** [await response.json()] *)
Definition json {A : Type} (body : Json A) : Async A :=
  match body with
  | Unparsable m => throw (mkError m)
  | Parsed v => ret v
  end.

(** [date.toISOString()] throws a [RangeError] on an invalid date. *)
Definition toISOString (d : Date) : Async string :=
  match d with
  | InvalidDate => throw (mkError "Invalid time value")
  | DateOf text => ret text
  end.

(** [try { body } catch (e) { handler e } finally { cleanup }] *)
Definition tryCatchFinally {A : Type} (body : Async A)
    (handler : Error -> Async A) (cleanup : Async unit) : Async A :=
  tryFinally (tryCatch body handler) cleanup.

(** The idiom of the GD provider after each [fetch]:
    [if (!response.ok) { const errorData = await response.json();
       throw new Error(errorData.error || fallback); }
     ... await response.json()] *)
Definition expectOk {A : Type} (fallback : string) (response : Response A) : Async A :=
  match response with
  | NotOk body =>
      errorData <- json body ;;
      throw (mkError (orDefault (error errorData) fallback))
  | Ok body => json body
  end.

(** ** The auth provider *)

Definition profileToUser (p : ProfileRow) : User :=
  {| user_id := profile_id p;
     user_name := profile_name p;
     user_email := profile_email p;
     user_role := profile_role p;
     department := orUndefined (profile_department p);
     section := orUndefined (profile_section p);
     year := orUndefined (profile_year p);
     rollNumber := orUndefined (roll_number p);
     designation := orUndefined (profile_designation p);
     user_createdAt := newDate (profile_created_at p) |}.

(** The effect run once when the provider mounts. *)
Definition checkSession (answer : Fetch ProfileRow) : Async unit :=
  stored <- getItem ;;
  match truthy stored with
  | Some bearer =>
      tryCatch
        (response <- fetch (CheckSessionRequest bearer) answer ;;
         match response with
         | Ok body =>
             userData <- json body ;;
             setUser (Some (profileToUser userData))
         | NotOk _ => removeItem
         end)
        (fun _ => removeItem)
  | None => ret tt
  end ;;
  setAuthIsLoading false.

Definition login (email password : string) (answer : Fetch LoginData) : Async unit :=
  tryCatchFinally
    (setAuthIsLoading true ;;
     response <- fetch (LoginRequest email password) answer ;;
     match response with
     | NotOk _ => throw (mkError "Login failed")
     | Ok body =>
         userData <- json body ;;
         setUser (Some (profileToUser (profile userData))) ;;
         setItem (token userData)
     end)
    (fun e => throw (mkError (orString (message e) "Failed to log in")))
    (setAuthIsLoading false).

Definition register (data : RegisterData) (answer : Fetch LoginData) : Async unit :=
  tryCatchFinally
    (setAuthIsLoading true ;;
     response <- fetch (RegisterRequest data) answer ;;
     match response with
     | NotOk _ => throw (mkError "Registration failed")
     | Ok body =>
         userData <- json body ;;
         setUser (Some (profileToUser (profile userData))) ;;
         setItem (token userData)
     end)
    (fun e => throw (mkError (orString (message e) "Failed to register")))
    (setAuthIsLoading false).

Definition updateProfile (data : UpdateProfileData) (answer : Fetch ProfileRow)
  : Async unit :=
  current <- get user ;;
  tryCatchFinally
    (match current with
     | None => throw (mkError "No user is logged in")
     | Some _ =>
         setAuthIsLoading true ;;
         bearer <- getItem ;;
         response <- fetch (UpdateProfileRequest bearer data) answer ;;
         match response with
         | NotOk _ => throw (mkError "Profile update failed")
         | Ok body =>
             updatedUser <- json body ;;
             setUser (Some (profileToUser updatedUser))
         end
     end)
    (fun e => throw (mkError (orString (message e) "Failed to update profile")))
    (setAuthIsLoading false).

Definition logout : Async unit :=
  tryCatchFinally
    (setAuthIsLoading true ;;
     removeItem ;;
     setUser None)
    (fun e => throw (mkError (orString (message e) "Failed to log out")))
    (setAuthIsLoading false).

(** ** The GD provider *)

(** The mapping of a raw session, written out in [fetchData] and again in
    [createSession]. *)
Definition formatSession (s : RawSession) : GDSession :=
  {| session_id := raw_id s;
     topic := raw_topic s;
     details := raw_details s;
     groupName := group_name s;
     groupNumber := group_number s;
     date := newDate (raw_date s);
     participants := orEmpty (raw_participants s);
     evaluators := orEmpty (raw_evaluators s);
     createdBy := created_by s;
     session_createdAt := newDate (raw_created_at s) |}.

(** [sessions.find((s) => s.id === id)] *)
Definition findSession (l : list GDSession) (id : string) : option GDSession :=
  find (fun s => String.eqb (session_id s) id) l.

(** [session?.createdBy === evaluatorId] : with a session, the text of its
    [createdBy] against the evaluator id, which equals it only if it is that
    text; without a session the left side is [undefined], which equals the
    evaluator id exactly when that is [undefined] too. *)
Definition isInstructor (session : option GDSession) (evaluatorId : option string)
  : bool :=
  match session, evaluatorId with
  | Some s, Some id => String.eqb (createdBy s) id
  | Some _, None => false
  | None, Some _ => false
  | None, None => true
  end.

(** The mapping of a raw evaluation, written out in [fetchData] (against the
    sessions just fetched) and again in [submitEvaluation] (against the
    sessions in memory). *)
Definition formatEvaluation (known : list GDSession) (e : RawEvaluation) : Evaluation :=
  let session := findSession known (gd_session_id e) in
  let isInstructor := isInstructor session (evaluator_id e) in
  {| evaluation_id := eval_id e;
     gdSessionId := gd_session_id e;
     studentId := student_id e;
     evaluatorId := evaluator_id e;
     evaluatorRole := if isInstructor then instructor else student;
     criteria :=
       {| articulation := raw_articulation e;
          relevance := raw_relevance e;
          leadership := raw_leadership e;
          nonVerbalCommunication := non_verbal_communication e;
          impression := raw_impression e |};
     evaluation_createdAt := newDate (eval_created_at e) |}.

Definition fetchData (sessionsAnswer : Fetch (list RawSession))
    (evaluationsAnswer : Fetch (list RawEvaluation)) : Async unit :=
  current <- get user ;;
  match current with
  | None => ret tt
  | Some u =>
      if String.eqb (user_id u) "" then ret tt
      else
        setIsLoading true ;;
        stored <- getItem ;;
        match truthy stored with
        | None => setIsLoading false
        | Some bearer =>
            tryCatchFinally
              (sessionsResponse <- fetch (SessionsRequest bearer) sessionsAnswer ;;
               sessionsData <- expectOk "Failed to fetch sessions" sessionsResponse ;;
               let formattedSessions := map formatSession sessionsData in
               setSessions (fun _ => formattedSessions) ;;
               evaluationsResponse <-
                 fetch (EvaluationsRequest bearer) evaluationsAnswer ;;
               evaluationsData <-
                 expectOk "Failed to fetch evaluations" evaluationsResponse ;;
               let formattedEvaluations :=
                 map (formatEvaluation formattedSessions) evaluationsData in
               setEvaluations (fun _ => formattedEvaluations))
              (fun _ => ret tt)
              (setIsLoading false)
        end
  end.

Definition createSession (sessionData : SessionData) (answer : Fetch RawSession)
    (sessionsAnswer : Fetch (list RawSession))
    (evaluationsAnswer : Fetch (list RawEvaluation)) : Async GDSession :=
  current <- get user ;;
  match current with
  | None => throw (mkError "You must be logged in to create a session")
  | Some u =>
      if negb (UserRole_eqb (user_role u) instructor)
      then throw (mkError "Only instructors can create sessions")
      else
        setIsLoading true ;;
        bearer <- getItem ;;
        tryCatchFinally
          (isoDate <- toISOString (data_date sessionData) ;;
           response <- fetch (CreateSessionRequest bearer sessionData isoDate) answer ;;
           newSession <- expectOk "Failed to create session" response ;;
           let formattedSession := formatSession newSession in
           setSessions (fun prev => prev ++ [formattedSession]) ;;
           fetchData sessionsAnswer evaluationsAnswer ;;
           ret formattedSession)
          (fun e => throw e)
          (setIsLoading false)
  end.

Definition getSessionById (known : list GDSession) (id : string) : option GDSession :=
  findSession known id.

Record SessionsForUser : Type := mkSessionsForUser {
  participatingSessions : list GDSession;
  evaluatingSessions : list GDSession
}.

Definition getSessionsForUser (current : option User) (known : list GDSession)
  : SessionsForUser :=
  match current with
  | None => {| participatingSessions := []; evaluatingSessions := [] |}
  | Some u =>
      if UserRole_eqb (user_role u) instructor then
        let createdSessions :=
          filter (fun session => String.eqb (createdBy session) (user_id u)) known in
        {| participatingSessions := []; evaluatingSessions := createdSessions |}
      else
        let rollNumber := orDefault (rollNumber u) "" in
        {| participatingSessions :=
             filter (fun session => includes (participants session) rollNumber) known;
           evaluatingSessions :=
             filter (fun session => includes (evaluators session) rollNumber) known |}
  end.

Definition submitEvaluation (gdSessionId studentId : string)
    (criteria : EvaluationCriteria) (answer : Fetch RawEvaluation)
    (sessionsAnswer : Fetch (list RawSession))
    (evaluationsAnswer : Fetch (list RawEvaluation)) : Async Evaluation :=
  current <- get user ;;
  known <- get sessions ;;
  match current with
  | None => throw (mkError "You must be logged in to submit an evaluation")
  | Some _ =>
      setIsLoading true ;;
      bearer <- getItem ;;
      tryCatchFinally
        (response <-
           fetch (SubmitEvaluationRequest bearer gdSessionId studentId criteria) answer ;;
         newEvaluation <- expectOk "Failed to submit evaluation" response ;;
         let formattedEvaluation := formatEvaluation known newEvaluation in
         setEvaluations (fun prev => prev ++ [formattedEvaluation]) ;;
         fetchData sessionsAnswer evaluationsAnswer ;;
         ret formattedEvaluation)
        (fun e => throw e)
        (setIsLoading false)
  end.

Definition getEvaluationsForSession (known : list Evaluation) (sessionId : string)
  : list Evaluation :=
  filter (fun e => String.eqb (gdSessionId e) sessionId) known.

(** ** Executions

    A call of a provider method together with what the backend answers to
    it.  Calls run one after the other: each runs to completion before the
    next begins. *)
Inductive Call : Type :=
| CheckSession (answer : Fetch ProfileRow)
| Login (email password : string) (answer : Fetch LoginData)
| Register (data : RegisterData) (answer : Fetch LoginData)
| UpdateProfile (data : UpdateProfileData) (answer : Fetch ProfileRow)
| Logout
| FetchData (sessionsAnswer : Fetch (list RawSession))
    (evaluationsAnswer : Fetch (list RawEvaluation))
| CreateSession (sessionData : SessionData) (answer : Fetch RawSession)
    (sessionsAnswer : Fetch (list RawSession))
    (evaluationsAnswer : Fetch (list RawEvaluation))
| SubmitEvaluation (gdSessionId studentId : string) (criteria : EvaluationCriteria)
    (answer : Fetch RawEvaluation)
    (sessionsAnswer : Fetch (list RawSession))
    (evaluationsAnswer : Fetch (list RawEvaluation)).

(** The store a call leaves behind, however it completes. *)
Definition after (c : Call) (s : Store) : Store :=
  match c with
  | CheckSession a => fst (checkSession a s)
  | Login e p a => fst (login e p a s)
  | Register d a => fst (register d a s)
  | UpdateProfile d a => fst (updateProfile d a s)
  | Logout => fst (logout s)
  | FetchData a b => fst (fetchData a b s)
  | CreateSession d a b c' => fst (createSession d a b c' s)
  | SubmitEvaluation g t k a b c' => fst (submitEvaluation g t k a b c' s)
  end.

(** The loading flag of the provider the method belongs to. *)
Definition isLoading (c : Call) (s : Store) : bool :=
  match c with
  | CheckSession _ | Login _ _ _ | Register _ _ | UpdateProfile _ _ | Logout =>
      auth_isLoading s
  | FetchData _ _ | CreateSession _ _ _ _ | SubmitEvaluation _ _ _ _ _ _ =>
      gd_isLoading s
  end.

(** The stores an execution can be in between two calls. *)
Inductive reachable : Store -> Prop :=
| reachable_initial : forall stored, reachable (initialStore stored)
| reachable_after : forall s c, reachable s -> reachable (after c s).

(** ** Predicates used in the statements *)

(** No optional field of a user holds the empty string. *)
Definition optionalFieldsNonEmpty (u : User) : Prop :=
  department u <> Some "" /\ section u <> Some "" /\ year u <> Some ""
  /\ rollNumber u <> Some "" /\ designation u <> Some "".

(** The answer is a 2xx response whose body parses. *)
Definition succeeded {A : Type} (answer : Fetch A) : bool :=
  match answer with
  | Resolves (Ok (Parsed _)) => true
  | _ => false
  end.

(** ** Proof automation *)

(** Unfolds a method down to its reads and writes of the store. *)
Ltac unfold_async :=
  unfold checkSession, login, register, updateProfile, logout, createSession,
    submitEvaluation, fetchData, tryCatchFinally, tryFinally, tryCatch,
    expectOk, fetch, json, toISOString, setUser, setAuthIsLoading, setIsLoading,
    setSessions, setEvaluations, getItem, setItem, removeItem, get, modify,
    bind, ret, throw.

(** Splits on whatever the method branches on next. *)
Ltac branch :=
  match goal with
  | |- context [match ?x with _ => _ end] =>
      lazymatch x with
      | context [match _ with _ => _ end] => fail
      | _ => destruct x eqn:?
      end
  end.

Ltac run_async := unfold_async; cbn; repeat (branch; cbn).

(** The provider a method belongs to. *)
Inductive Provider : Type := AuthProvider | GDProvider.

Definition provider (c : Call) : Provider :=
  match c with
  | CheckSession _ | Login _ _ _ | Register _ _ | UpdateProfile _ _ | Logout =>
      AuthProvider
  | FetchData _ _ | CreateSession _ _ _ _ | SubmitEvaluation _ _ _ _ _ _ =>
      GDProvider
  end.

(** The same raw evaluation claiming another role for its evaluator. *)
Definition with_evaluator_role (r : option string) (e : RawEvaluation)
  : RawEvaluation :=
  mkRawEvaluation (eval_id e) (gd_session_id e) (student_id e) (evaluator_id e) r
    (raw_articulation e) (raw_relevance e) (raw_leadership e)
    (non_verbal_communication e) (raw_impression e) (eval_created_at e).

(** ** Sample data *)

(** The worked example of the design document: one peer scoring
    8, 6, 7, 5, 9 and the instructor scoring 10 throughout give a final
    articulation of (8 + 10) / 2 = 9. *)
Definition example_peer : Evaluation :=
  mkEvaluation "e1" "gd1" "s1" (Some "s2") student (mkCriteria 8 6 7 5 9)
               (DateOf "2024-01-01").

Definition example_instructor : Evaluation :=
  mkEvaluation "e2" "gd1" "s1" (Some "t1") instructor (mkCriteria 10 10 10 10 10)
               (DateOf "2024-01-01").

Definition sample_student : User :=
  mkUser "s1" "Asha" "asha@example.org" student (Some "CSE") (Some "A") (Some "3")
         (Some "21CS001") None (DateOf "2024-01-01").

Definition sample_instructor : User :=
  mkUser "t1" "Ravi" "ravi@example.org" instructor (Some "CSE") None None None
         (Some "Professor") (DateOf "2024-01-01").

Definition sample_session : GDSession :=
  mkSession "gd1" "Remote work" "Round one" "Alpha" 1 (DateOf "2024-02-01")
            ["21CS001"; "21CS002"] ["21CS001"; "21CS003"] "t1" (DateOf "2024-01-15").

Definition sample_sessionData : SessionData :=
  mkSessionData "Remote work" "Round one" "Alpha" 1 (DateOf "2024-02-01")
                ["21CS001"; "21CS002"] ["21CS003"].

Definition sample_rawSession : RawSession :=
  mkRawSession "gd1" "Remote work" "Round one" "Alpha" 1 "2024-02-01"
               (Some ["21CS001"; "21CS002"]) (Some ["21CS003"]) "t1" "2024-01-15".

(** An evaluation of a session nobody holds, by an evaluator the record
    itself calls an instructor. *)
Definition orphan_rawEvaluation : RawEvaluation :=
  mkRawEvaluation "e9" "gd-unknown" "s1" (Some "t1") (Some "instructor") 8 6 7 5 9
                  "2024-02-02".

(** An evaluation of a session nobody holds, with no evaluator id. *)
Definition anonymous_rawEvaluation : RawEvaluation :=
  mkRawEvaluation "e10" "gd-unknown" "s1" None None 8 6 7 5 9 "2024-02-03".

(** A student signed in, nothing loaded yet. *)
Definition student_store : Store :=
  mkStore (Some sample_student) false [] [] false (Some "token-s1") [].

(** Nobody signed in, a token left over from an earlier visit. *)
Definition stale_store : Store := initialStore (Some "stale-token").


Definition sample_profile : ProfileRow :=
  mkProfileRow "s1" "Asha" "asha@example.org" student (Some "CSE") (Some "")
               None (Some "21CS001") None "2024-01-01".

Definition sample_loginData : LoginData := mkLoginData sample_profile "token-s1".

Definition sample_updateProfileData : UpdateProfileData :=
  mkUpdateProfileData (Some "Asha K") None None None None None None.

(** An instructor signed in, one session in memory. *)
Definition instructor_store : Store :=
  mkStore (Some sample_instructor) false [sample_session] [] false
          (Some "token-t1") [].

(** * Properties *)

(** ** Score aggregation *)

Section ScoreAggregation.

Variable evaluations : list Evaluation.
Variables sessionId studentId' : string.

Abbreviation kept := (sessionEvaluationsOf evaluations sessionId studentId').
Abbreviation result := (calculateScores evaluations sessionId studentId').

(** The accumulating loop of [reduce] computes the sum of the list. *)
Lemma reduce_sum {A : Type} (f : A -> Q) (l : list A) (acc : Q) :
  reduce (fun sum e => sum + f e) acc l == acc + Qsum (map f l).
Proof.
  unfold reduce. revert acc.
  induction l as [| x l IH]; intro acc; simpl.
  - ring.
  - rewrite IH. ring.
Qed.

Lemma reduce_mean {A : Type} (f : A -> Q) (l : list A) :
  reduce (fun sum e => sum + f e) 0 l / len l == mean (map f l).
Proof.
  unfold mean. rewrite reduce_sum. unfold len. rewrite length_map.
  rewrite Qplus_0_l. reflexivity.
Qed.

Lemma score_emptyCriteria (c : Criterion) : score c emptyCriteria = 0.
Proof. destruct c; reflexivity. Qed.

Lemma calculateScores_empty :
  kept = [] -> result = mkScores emptyCriteria emptyCriteria emptyCriteria.
Proof.
  unfold calculateScores. intros ->. reflexivity.
Qed.

(** Past the early return, the three records as the source builds them. *)
Lemma calculateScores_nonempty :
  kept <> [] ->
  (forall c, score c (peerAverage result) ==
             match peersOf kept with
             | [] => 0
             | _ :: _ => mean (map (fun e => score c (criteria e)) (peersOf kept))
             end)
  /\ instructorScores result =
     match instructorsOf kept with
     | [] => emptyCriteria
     | e :: _ => criteria e
     end
  /\ (forall c, score c (finalScores result) ==
                (score c (peerAverage result) + score c (instructorScores result)) / 2).
Proof.
  intro Hne. unfold calculateScores.
  destruct kept as [| e0 rest]; [congruence |].
  cbn [List.length Nat.eqb].
  split; [| split].
  - intro c. destruct (peersOf (e0 :: rest)) as [| p ps].
    + cbn [List.length Nat.ltb Nat.leb peerAverage].
      rewrite score_emptyCriteria. reflexivity.
    + cbn [List.length Nat.ltb Nat.leb peerAverage].
      destruct c; cbn [score articulation relevance leadership
                         nonVerbalCommunication impression];
        apply reduce_mean.
  - destruct (instructorsOf (e0 :: rest)) as [| i others]; reflexivity.
  - intro c. destruct c; reflexivity.
Qed.

End ScoreAggregation.

Lemma UserRole_eqb_eq (a b : UserRole) : UserRole_eqb a b = true <-> a = b.
Proof. destruct a, b; simpl; split; congruence. Qed.

Lemma In_sessionEvaluationsOf evaluations sessionId studentId' e :
  In e (sessionEvaluationsOf evaluations sessionId studentId') <->
  In e evaluations /\ gdSessionId e = sessionId /\ studentId e = studentId'.
Proof.
  unfold sessionEvaluationsOf.
  rewrite filter_In, andb_true_iff, !String.eqb_eq. tauto.
Qed.

Lemma In_peersOf l e :
  In e (peersOf l) <-> In e l /\ evaluatorRole e = student.
Proof. unfold peersOf. rewrite filter_In, UserRole_eqb_eq. tauto. Qed.

Lemma In_instructorsOf l e :
  In e (instructorsOf l) <-> In e l /\ evaluatorRole e = instructor.
Proof. unfold instructorsOf. rewrite filter_In, UserRole_eqb_eq. tauto. Qed.

(** Every evaluation is a peer's or an instructor's, never both. *)
Lemma peers_instructors_partition l :
  (List.length (peersOf l) + List.length (instructorsOf l) = List.length l)%nat.
Proof.
  unfold peersOf, instructorsOf.
  induction l as [| e l IH]; simpl; [reflexivity |].
  destruct (evaluatorRole e); simpl; lia.
Qed.

Lemma filter_all {A : Type} (p : A -> bool) (l : list A) :
  (forall x, In x l -> p x = true) -> filter p l = l.
Proof.
  induction l as [| x l IH]; simpl; intro H; [reflexivity |].
  rewrite (H x (or_introl eq_refl)). f_equal. apply IH. intros y Hy.
  apply H. now right.
Qed.

Lemma filter_none {A : Type} (p : A -> bool) (l : list A) :
  (forall x, In x l -> p x = false) -> filter p l = [].
Proof.
  induction l as [| x l IH]; simpl; intro H; [reflexivity |].
  rewrite (H x (or_introl eq_refl)). apply IH. intros y Hy.
  apply H. now right.
Qed.

Lemma only_peers l :
  (forall e, In e l -> evaluatorRole e = student) ->
  peersOf l = l /\ instructorsOf l = [].
Proof.
  intro H. split.
  - apply filter_all. intros e He. now rewrite (H e He).
  - apply filter_none. intros e He. now rewrite (H e He).
Qed.

Lemma only_instructors l :
  (forall e, In e l -> evaluatorRole e = instructor) ->
  peersOf l = [] /\ instructorsOf l = l.
Proof.
  intro H. split.
  - apply filter_none. intros e He. now rewrite (H e He).
  - apply filter_all. intros e He. now rewrite (H e He).
Qed.

(** C1.  [calculateScores sessionId studentId] keeps the evaluations of that
    session and student and splits them by the role of the evaluator.  The
    peer average is, criterion by criterion, the arithmetic mean over the
    evaluations by students, and all zero when there is none; the instructor
    score is the criteria of the first evaluation by an instructor, and all
    zero when there is none; the final score is, criterion by criterion,
    (peer average + instructor score) / 2; and when no evaluation is kept,
    the three records are all zero. *)
Theorem calculateScores_correct (evaluations : list Evaluation)
    (sessionId studentId' : string) :
  let kept := sessionEvaluationsOf evaluations sessionId studentId' in
  let peers := peersOf kept in
  let instructors := instructorsOf kept in
  let result := calculateScores evaluations sessionId studentId' in
  (forall e, In e kept <->
             In e evaluations /\ gdSessionId e = sessionId /\ studentId e = studentId')
  /\ (forall e, In e peers <-> In e kept /\ evaluatorRole e = student)
  /\ (forall e, In e instructors <-> In e kept /\ evaluatorRole e = instructor)
  /\ (List.length peers + List.length instructors = List.length kept)%nat
  /\ (forall c, score c (peerAverage result) ==
                match peers with
                | [] => 0
                | _ :: _ => mean (map (fun e => score c (criteria e)) peers)
                end)
  /\ instructorScores result =
     match instructors with
     | [] => emptyCriteria
     | e :: _ => criteria e
     end
  /\ (forall c, score c (finalScores result) ==
                (score c (peerAverage result) + score c (instructorScores result)) / 2)
  /\ (kept = [] -> result = mkScores emptyCriteria emptyCriteria emptyCriteria).
Proof.
  intros kept peers instructors result.
  split; [intro e; apply In_sessionEvaluationsOf |].
  split; [intro e; apply In_peersOf |].
  split; [intro e; apply In_instructorsOf |].
  split; [apply peers_instructors_partition |].
  assert (Hempty : kept = [] ->
                   result = mkScores emptyCriteria emptyCriteria emptyCriteria)
    by apply calculateScores_empty.
  destruct kept as [| e0 rest] eqn:E.
  - rewrite (Hempty eq_refl).
    subst peers instructors. cbn.
    repeat split; intro c; rewrite ?score_emptyCriteria; reflexivity.
  - assert (Hne : sessionEvaluationsOf evaluations sessionId studentId' <> [])
      by (fold kept; rewrite E; discriminate).
    destruct (calculateScores_nonempty evaluations sessionId studentId' Hne)
      as (Hpeer & Hinstr & Hfinal).
    fold kept in Hpeer, Hinstr. rewrite E in Hpeer, Hinstr.
    repeat split; assumption.
Qed.

(** The worked example of the design document: one peer scoring
    8, 6, 7, 5, 9 and the instructor scoring 10 throughout give a final
    articulation of (8 + 10) / 2 = 9. *)
Example calculateScores_example :
  articulation
    (finalScores (calculateScores [example_peer; example_instructor] "gd1" "s1")) == 9.
Proof. vm_compute. reflexivity. Qed.

Lemma half_eq_self (x : Q) : x / 2 == x <-> x == 0.
Proof.
  split; intro H.
  - assert (E : x == 2 * (x / 2)) by field.
    rewrite H in E. lra.
  - rewrite H. reflexivity.
Qed.

(** C2, as the code has it.  When every evaluation kept for the session and
    student is a peer's (and there is at least one), the instructor score is
    the all-zero record and each criterion of the final score is half the
    peer average; the final score equals the peer average only where the peer
    average is zero. *)
Theorem peers_only_final_is_half_peer_average (evaluations : list Evaluation)
    (sessionId studentId' : string) :
  let kept := sessionEvaluationsOf evaluations sessionId studentId' in
  let result := calculateScores evaluations sessionId studentId' in
  kept <> [] ->
  (forall e, In e kept -> evaluatorRole e = student) ->
  instructorScores result = emptyCriteria
  /\ (forall c, score c (peerAverage result) ==
                mean (map (fun e => score c (criteria e)) kept))
  /\ (forall c, score c (finalScores result) == score c (peerAverage result) / 2)
  /\ (forall c, score c (finalScores result) == score c (peerAverage result) <->
                score c (peerAverage result) == 0).
Proof.
  intros kept result Hne Hall.
  destruct (calculateScores_nonempty evaluations sessionId studentId' Hne)
    as (Hpeer & Hinstr & Hfinal).
  fold kept result in Hpeer, Hinstr, Hfinal.
  destruct (only_peers kept Hall) as [Hp Hi].
  rewrite Hp in Hpeer. rewrite Hi in Hinstr.
  assert (Hhalf : forall c, score c (finalScores result) ==
                            score c (peerAverage result) / 2).
  { intro c. rewrite Hfinal, Hinstr, score_emptyCriteria, Qplus_0_r. reflexivity. }
  split; [exact Hinstr |].
  split.
  - intro c. rewrite Hpeer. destruct kept; [congruence | reflexivity].
  - split; [exact Hhalf |].
    intro c. rewrite Hhalf. apply half_eq_self.
Qed.

Lemma peers_only_final_is_half_peer_average_witness :
  sessionEvaluationsOf [example_peer] "gd1" "s1" <> []
  /\ score Articulation (finalScores (calculateScores [example_peer] "gd1" "s1")) ==
     score Articulation (peerAverage (calculateScores [example_peer] "gd1" "s1")) / 2.
Proof.
  assert (Hne : sessionEvaluationsOf [example_peer] "gd1" "s1" <> [])
    by (vm_compute; discriminate).
  assert (Hall : forall e, In e (sessionEvaluationsOf [example_peer] "gd1" "s1") ->
                           evaluatorRole e = student)
    by (vm_compute; intros e [<- | []]; reflexivity).
  split; [exact Hne |].
  exact (proj1 (proj2 (proj2
    (peers_only_final_is_half_peer_average [example_peer] "gd1" "s1" Hne Hall)))
    Articulation).
Defined.

(** C2, as stated, fails: a single peer evaluation scoring 8 for
    articulation gives a peer average of 8 and a final score of 4. *)
Lemma peers_only_final_differs_from_peer_average :
  sessionEvaluationsOf [example_peer] "gd1" "s1" = [example_peer]
  /\ evaluatorRole example_peer = student
  /\ articulation (peerAverage (calculateScores [example_peer] "gd1" "s1")) == 8
  /\ articulation (finalScores (calculateScores [example_peer] "gd1" "s1")) == 4
  /\ ~ criteria_eq (finalScores (calculateScores [example_peer] "gd1" "s1"))
                   (peerAverage (calculateScores [example_peer] "gd1" "s1")).
Proof.
  repeat split; try (vm_compute; reflexivity).
  intro H. specialize (H Articulation). vm_compute in H. discriminate.
Qed.

(** C3.  When every evaluation kept for the session and student is an
    instructor's (and there is at least one), the instructor score is the
    criteria of the first of them and each criterion of the final score is
    the instructor score divided by 2. *)
Theorem instructors_only_final_is_half_instructor_score
    (evaluations : list Evaluation) (sessionId studentId' : string) :
  let kept := sessionEvaluationsOf evaluations sessionId studentId' in
  let result := calculateScores evaluations sessionId studentId' in
  kept <> [] ->
  (forall e, In e kept -> evaluatorRole e = instructor) ->
  Some (instructorScores result) = option_map criteria (hd_error kept)
  /\ (forall c, score c (finalScores result) == score c (instructorScores result) / 2).
Proof.
  intros kept result Hne Hall.
  destruct (calculateScores_nonempty evaluations sessionId studentId' Hne)
    as (Hpeer & Hinstr & Hfinal).
  fold kept result in Hpeer, Hinstr, Hfinal.
  destruct (only_instructors kept Hall) as [Hp Hi].
  rewrite Hp in Hpeer. rewrite Hi in Hinstr.
  split.
  - rewrite Hinstr. destruct kept; [congruence | reflexivity].
  - intro c. rewrite Hfinal, Hpeer, Qplus_0_l. reflexivity.
Qed.

Lemma instructors_only_final_is_half_instructor_score_witness :
  sessionEvaluationsOf [example_instructor] "gd1" "s1" <> []
  /\ score Articulation
       (finalScores (calculateScores [example_instructor] "gd1" "s1")) ==
     score Articulation
       (instructorScores (calculateScores [example_instructor] "gd1" "s1")) / 2.
Proof.
  assert (Hne : sessionEvaluationsOf [example_instructor] "gd1" "s1" <> [])
    by (vm_compute; discriminate).
  assert (Hall : forall e,
             In e (sessionEvaluationsOf [example_instructor] "gd1" "s1") ->
             evaluatorRole e = instructor)
    by (vm_compute; intros e [<- | []]; reflexivity).
  split; [exact Hne |].
  exact (proj2
    (instructors_only_final_is_half_instructor_score
       [example_instructor] "gd1" "s1" Hne Hall) Articulation).
Defined.

(** ** The providers *)

(** [fetchData] swallows every failure, touches nothing of the auth
    provider, ends with its flag down unless it returned at once, and only
    ever replaces a collection by the formatted answer of the backend. *)
Lemma fetchData_effect (sa : Fetch (list RawSession))
    (ea : Fetch (list RawEvaluation)) (s : Store) :
  exists s',
    fetchData sa ea s = (s', Returned tt)
    /\ user s' = user s
    /\ auth_isLoading s' = auth_isLoading s
    /\ authToken s' = authToken s
    /\ (gd_isLoading s' = false \/ s' = s)
    /\ (sessions s' = sessions s
        \/ exists rs, sa = Resolves (Ok (Parsed rs))
                      /\ sessions s' = map formatSession rs)
    /\ (evaluations s' = evaluations s
        \/ exists rs re,
             sa = Resolves (Ok (Parsed rs)) /\ ea = Resolves (Ok (Parsed re))
             /\ sessions s' = map formatSession rs
             /\ evaluations s' = map (formatEvaluation (sessions s')) re).
Proof.
  run_async; eexists; (split; [reflexivity |]); cbn;
    repeat split; eauto 8.
Qed.

(** A GD method ends with the flag of its provider down, or it failed its
    precondition before touching anything. *)
Lemma gd_isLoading_down_or_untouched (c : Call) (s : Store) :
  provider c = GDProvider ->
  gd_isLoading (after c s) = false \/ after c s = s.
Proof.
  destruct c; cbn [provider after]; try discriminate; intros _.
  - destruct (fetchData_effect sessionsAnswer evaluationsAnswer s)
      as (s' & E & _ & _ & _ & H & _).
    rewrite E. exact H.
  - run_async; auto.
  - run_async; auto.
Qed.

(** *** Login *)

(** C4, as the code has it.  A login answered with a non-2xx response throws
    "Login failed" to the caller, leaves the user as it was (so null when
    nobody was signed in) and the stored token as it was, and ends with the
    loading flag down; the one request it sent is the login request. *)
Theorem login_rejected_keeps_user_and_token (email password : string)
    (body : Json ErrorData) (s : Store) :
  let r := login email password (Resolves (NotOk body)) s in
  snd r = Thrown (mkError "Login failed")
  /\ user (fst r) = user s
  /\ authToken (fst r) = authToken s
  /\ auth_isLoading (fst r) = false
  /\ requests (fst r) = requests s ++ [LoginRequest email password]
  /\ sessions (fst r) = sessions s
  /\ evaluations (fst r) = evaluations s
  /\ gd_isLoading (fst r) = gd_isLoading s.
Proof.
  run_async. repeat split.
Qed.

(** C4, as stated, fails: with a token in [localStorage] and nobody signed
    in, a login answered 401 throws and leaves the user null, and the token
    is still there afterwards. *)
Lemma login_rejected_leaves_stale_token :
  let r := login "asha@example.org" "wrong"
             (Resolves (NotOk (Parsed (mkErrorData (Some "Invalid credentials")))))
             stale_store in
  user stale_store = None
  /\ authToken stale_store = Some "stale-token"
  /\ snd r = Thrown (mkError "Login failed")
  /\ user (fst r) = None
  /\ authToken (fst r) = Some "stale-token"
  /\ authToken (fst r) <> None.
Proof.
  cbv zeta. repeat split; try reflexivity. discriminate.
Qed.

(** *** Creating a session *)

(** C5.  [createSession] called with nobody signed in, or by a user who is
    not an instructor, throws the permission error at once: it sends no
    request and leaves the whole store, so the sessions and the evaluations,
    as it was. *)
Theorem createSession_refused_before_any_request (sessionData : SessionData)
    (answer : Fetch RawSession) (sa : Fetch (list RawSession))
    (ea : Fetch (list RawEvaluation)) (s : Store) :
  user s = None \/ (exists u, user s = Some u /\ user_role u <> instructor) ->
  let r := createSession sessionData answer sa ea s in
  snd r = Thrown (mkError
            match user s with
            | None => "You must be logged in to create a session"
            | Some _ => "Only instructors can create sessions"
            end)
  /\ requests (fst r) = requests s
  /\ sessions (fst r) = sessions s
  /\ evaluations (fst r) = evaluations s
  /\ fst r = s.
Proof.
  intros [H | (u & H & Hrole)]; unfold_async; cbn; rewrite H; cbn.
  - repeat split.
  - destruct (user_role u); [| congruence]. cbn. repeat split.
Qed.

Lemma createSession_refused_before_any_request_witness :
  (exists u, user student_store = Some u /\ user_role u <> instructor)
  /\ snd (createSession sample_sessionData
            (Resolves (Ok (Parsed sample_rawSession)))
            (Resolves (Ok (Parsed [sample_rawSession])))
            (Resolves (Ok (Parsed []))) student_store)
     = Thrown (mkError "Only instructors can create sessions")
  /\ requests (fst (createSession sample_sessionData
            (Resolves (Ok (Parsed sample_rawSession)))
            (Resolves (Ok (Parsed [sample_rawSession])))
            (Resolves (Ok (Parsed []))) student_store)) = [].
Proof.
  assert (H : exists u, user student_store = Some u /\ user_role u <> instructor)
    by (exists sample_student; split; [reflexivity | discriminate]).
  split; [exact H |].
  pose proof (createSession_refused_before_any_request sample_sessionData
                (Resolves (Ok (Parsed sample_rawSession)))
                (Resolves (Ok (Parsed [sample_rawSession])))
                (Resolves (Ok (Parsed []))) student_store (or_intror H)) as T.
  split; [exact (proj1 T) | exact (proj1 (proj2 T))].
Defined.

(** An instructor's call does reach the network. *)
Example createSession_by_instructor_sends_request :
  requests (fst (createSession sample_sessionData
                   (Resolves (Ok (Parsed sample_rawSession)))
                   (Resolves (Ok (Parsed [sample_rawSession])))
                   (Resolves (Ok (Parsed [])))
                   (mkStore (Some sample_instructor) false [] [] false
                            (Some "token-t1") [])))
  = [CreateSessionRequest (Some "token-t1") sample_sessionData "2024-02-01";
     SessionsRequest "token-t1"; EvaluationsRequest "token-t1"].
Proof. reflexivity. Qed.

(** *** Sessions of the current user *)

Lemma includes_In (l : list string) (x : string) :
  includes l x = true <-> In x l.
Proof.
  unfold includes. rewrite existsb_exists. split.
  - intros (y & Hy & E). apply String.eqb_eq in E. now subst.
  - intro H. exists x. split; [exact H | apply String.eqb_refl].
Qed.

(** C6.  For an instructor, [getSessionsForUser] puts under "evaluating"
    exactly the sessions whose [createdBy] is the user's id, in the order of
    the collection, and nothing under "participating". *)
Theorem getSessionsForUser_instructor (u : User) (known : list GDSession) :
  user_role u = instructor ->
  let r := getSessionsForUser (Some u) known in
  participatingSessions r = []
  /\ evaluatingSessions r =
     filter (fun session => String.eqb (createdBy session) (user_id u)) known
  /\ (forall session, In session (evaluatingSessions r) <->
                      In session known /\ createdBy session = user_id u).
Proof.
  intros Hrole r. subst r. unfold getSessionsForUser. rewrite Hrole. cbn.
  split; [reflexivity |]. split; [reflexivity |].
  intro session. rewrite filter_In, String.eqb_eq. tauto.
Qed.

Lemma getSessionsForUser_instructor_witness :
  user_role sample_instructor = instructor
  /\ participatingSessions (getSessionsForUser (Some sample_instructor) [sample_session])
     = []
  /\ evaluatingSessions (getSessionsForUser (Some sample_instructor) [sample_session])
     = [sample_session].
Proof.
  split; [reflexivity |].
  pose proof (getSessionsForUser_instructor sample_instructor [sample_session]
                eq_refl) as T.
  split; [exact (proj1 T) | exact (proj1 (proj2 T))].
Defined.

(** C7.  For a user who is not an instructor, [getSessionsForUser] puts under
    "participating" exactly the sessions whose participants include the
    user's roll number and under "evaluating" exactly those whose evaluators
    include it (a missing roll number is read as the empty string); the two
    lists are filtered independently, so a session listing the roll number
    on both sides is in both. *)
Theorem getSessionsForUser_student (u : User) (known : list GDSession) :
  user_role u <> instructor ->
  let roll := match rollNumber u with Some r => r | None => "" end in
  let r := getSessionsForUser (Some u) known in
  participatingSessions r =
    filter (fun session => includes (participants session) roll) known
  /\ evaluatingSessions r =
     filter (fun session => includes (evaluators session) roll) known
  /\ (forall session, In session (participatingSessions r) <->
                      In session known /\ In roll (participants session))
  /\ (forall session, In session (evaluatingSessions r) <->
                      In session known /\ In roll (evaluators session))
  /\ (forall session, In session known ->
                      In roll (participants session) ->
                      In roll (evaluators session) ->
                      In session (participatingSessions r)
                      /\ In session (evaluatingSessions r)).
Proof.
  intros Hrole roll r.
  assert (Eroll : orDefault (rollNumber u) "" = roll).
  { subst roll. unfold orDefault, orString. destruct (rollNumber u) as [x |].
    - destruct (String.eqb x "") eqn:E; [| reflexivity].
      apply String.eqb_eq in E. now subst.
    - reflexivity. }
  assert (Er : r = mkSessionsForUser
                 (filter (fun session => includes (participants session) roll) known)
                 (filter (fun session => includes (evaluators session) roll) known)).
  { subst r. unfold getSessionsForUser.
    destruct (user_role u); [| congruence]. cbn. now rewrite Eroll. }
  rewrite Er. cbn.
  assert (Hp : forall session,
             In session (filter (fun x => includes (participants x) roll) known) <->
             In session known /\ In roll (participants session))
    by (intro x; rewrite filter_In, includes_In; tauto).
  assert (He : forall session,
             In session (filter (fun x => includes (evaluators x) roll) known) <->
             In session known /\ In roll (evaluators session))
    by (intro x; rewrite filter_In, includes_In; tauto).
  split; [reflexivity |]. split; [reflexivity |].
  split; [exact Hp |]. split; [exact He |].
  intros session Hk Hpart Heval. split; [apply Hp | apply He]; tauto.
Qed.

Lemma getSessionsForUser_student_witness :
  user_role sample_student <> instructor
  /\ participatingSessions (getSessionsForUser (Some sample_student) [sample_session])
     = [sample_session]
  /\ evaluatingSessions (getSessionsForUser (Some sample_student) [sample_session])
     = [sample_session].
Proof.
  assert (H : user_role sample_student <> instructor) by discriminate.
  split; [exact H |].
  pose proof (getSessionsForUser_student sample_student [sample_session] H) as T.
  split; [exact (proj1 T) | exact (proj1 (proj2 T))].
Defined.

(** Without a roll number the lookup is for the empty string. *)
Example getSessionsForUser_without_rollNumber :
  let u := mkUser "s9" "Kiran" "kiran@example.org" student None None None None None
                  (DateOf "2024-01-01") in
  let blank := mkSession "gd2" "Budget" "" "Beta" 2 (DateOf "2024-03-01")
                         [""] [] "t1" (DateOf "2024-02-20") in
  participatingSessions (getSessionsForUser (Some u) [sample_session; blank]) = [blank].
Proof. reflexivity. Qed.

(** *** Normalising evaluations *)

(** The role is the outcome of one comparison between two values either of
    which may be absent. *)
Lemma formatEvaluation_role (known : list GDSession) (raw : RawEvaluation) :
  evaluatorRole (formatEvaluation known raw) = instructor <->
  option_map createdBy (findSession known (gd_session_id raw)) = evaluator_id raw.
Proof.
  unfold formatEvaluation, isInstructor. cbn.
  destruct (findSession known (gd_session_id raw)) as [session |];
    destruct (evaluator_id raw) as [ev |]; cbn.
  - destruct (String.eqb (createdBy session) ev) eqn:E.
    + apply String.eqb_eq in E. subst ev. split; reflexivity.
    + apply String.eqb_neq in E. split; [discriminate | congruence].
  - split; discriminate.
  - split; discriminate.
  - split; reflexivity.
Qed.

Lemma formatEvaluation_role_student (known : list GDSession) (raw : RawEvaluation) :
  evaluatorRole (formatEvaluation known raw) = student <->
  option_map createdBy (findSession known (gd_session_id raw)) <> evaluator_id raw.
Proof.
  rewrite <- formatEvaluation_role.
  destruct (evaluatorRole (formatEvaluation known raw)); split; congruence.
Qed.

Lemma formatEvaluation_ignores_role (known : list GDSession) (raw : RawEvaluation)
    (claimed : option string) :
  formatEvaluation known (with_evaluator_role claimed raw) = formatEvaluation known raw.
Proof. reflexivity. Qed.

Lemma findSession_none (known : list GDSession) (id : string) :
  findSession known id = None <->
  forall session, In session known -> session_id session <> id.
Proof.
  unfold findSession. split.
  - intros H session Hin E.
    pose proof (find_none _ _ H session Hin) as F. cbn in F.
    apply String.eqb_neq in F. contradiction.
  - intro H. induction known as [| x l IH]; [reflexivity |]. cbn.
    destruct (String.eqb (session_id x) id) eqn:E.
    + apply String.eqb_eq in E. exfalso. apply (H x); [now left | exact E].
    + apply IH. intros session Hin. apply H. now right.
Qed.

(** With a user and a token, and both answers 2xx and well formed, the bulk
    fetch replaces both collections, the evaluations being normalised
    against the sessions just fetched. *)
Lemma fetchData_success (s : Store) (u : User) (bearer : string)
    (rs : list RawSession) (re : list RawEvaluation) :
  user s = Some u -> user_id u <> "" -> truthy (authToken s) = Some bearer ->
  fetchData (Resolves (Ok (Parsed rs))) (Resolves (Ok (Parsed re))) s =
  (mkStore (user s) (auth_isLoading s) (map formatSession rs)
           (map (formatEvaluation (map formatSession rs)) re) false (authToken s)
           ((requests s ++ [SessionsRequest bearer]) ++ [EvaluationsRequest bearer]),
   Returned tt).
Proof.
  intros Hu Hid Ht. apply String.eqb_neq in Hid.
  destruct s as [cu al ss es gl tok rq]. cbn in Hu, Ht |- *. subst cu.
  unfold_async. cbn. rewrite Hid. cbn. rewrite Ht. reflexivity.
Qed.

(** What [submitEvaluation] does to the evaluations: nothing when it fails;
    otherwise it returns the answer normalised against the sessions in memory
    and appends it, unless the refresh that follows replaces the collection. *)
Lemma submitEvaluation_effect (g t : string) (k : EvaluationCriteria)
    (answer : Fetch RawEvaluation) (sa : Fetch (list RawSession))
    (ea : Fetch (list RawEvaluation)) (s : Store) :
  let r := submitEvaluation g t k answer sa ea s in
  evaluations (fst r) = evaluations s
  \/ exists raw,
       answer = Resolves (Ok (Parsed raw))
       /\ snd r = Returned (formatEvaluation (sessions s) raw)
       /\ (evaluations (fst r) = evaluations s ++ [formatEvaluation (sessions s) raw]
           \/ exists rs re,
                sa = Resolves (Ok (Parsed rs)) /\ ea = Resolves (Ok (Parsed re))
                /\ sessions (fst r) = map formatSession rs
                /\ evaluations (fst r) = map (formatEvaluation (sessions (fst r))) re).
Proof.
  run_async;
    first
      [ left; reflexivity
      | right; eexists; split; [reflexivity |]; split; [reflexivity |];
        first
          [ left; reflexivity
          | right; do 2 eexists; repeat (split; [reflexivity |]); reflexivity ] ].
Qed.

(** Whatever the call, the evaluations afterwards are those before, or those
    before and one more normalised against the sessions in memory, or a list
    normalised against the sessions now in memory. *)
Lemma evaluations_after (c : Call) (s : Store) :
  evaluations (after c s) = evaluations s
  \/ (exists raw, evaluations (after c s) =
                  evaluations s ++ [formatEvaluation (sessions s) raw])
  \/ (exists re, evaluations (after c s) =
                 map (formatEvaluation (sessions (after c s))) re).
Proof.
  destruct c; cbn [after].
  1-5: run_async; auto.
  - destruct (fetchData_effect sessionsAnswer evaluationsAnswer s)
      as (s' & E & _ & _ & _ & _ & _ & [H | (rs & re & _ & _ & _ & H)]);
      rewrite E; cbn; eauto.
  - run_async; eauto.
  - destruct (submitEvaluation_effect gdSessionId0 studentId0 criteria0 answer
                sessionsAnswer evaluationsAnswer s)
      as [H | (raw & _ & _ & [H | (rs & re & _ & _ & _ & H)])]; eauto.
Qed.

(** A signed-in user who gets a well-formed 2xx answer gets the answer back
    normalised against the sessions that were in memory at the call, whatever
    the refresh that follows does. *)
Lemma submitEvaluation_returns (g t : string) (k : EvaluationCriteria)
    (raw : RawEvaluation) (sa : Fetch (list RawSession))
    (ea : Fetch (list RawEvaluation)) (s : Store) :
  user s <> None ->
  snd (submitEvaluation g t k (Resolves (Ok (Parsed raw))) sa ea s)
  = Returned (formatEvaluation (sessions s) raw).
Proof.
  intro H. run_async; congruence.
Qed.

(** C8.  What the code does with the role of an evaluator.  The role is never
    read from the incoming record: it is the outcome of comparing the
    [createdBy] of the first session with the record's session id with the
    evaluator id of the record.  Either side may be absent, and two absent
    sides compare equal.  So for a record that carries an evaluator id the
    role is instructor exactly when that session exists and was created by
    the evaluator, as the claim says; but a record without an evaluator id
    whose session is not held is made an instructor's although no session is
    owned by its evaluator.  The bulk fetch stores the answer normalised
    against the sessions it has just fetched; [submitEvaluation] returns and
    appends the answer normalised against the sessions in memory; no call
    changes the evaluations in any other way. *)
Theorem evaluatorRole_compares_two_possibly_absent_ids :
  (forall known raw,
      evaluatorRole (formatEvaluation known raw) = instructor <->
      option_map createdBy (findSession known (gd_session_id raw)) = evaluator_id raw)
  /\ (forall known raw ev,
         evaluator_id raw = Some ev ->
         (evaluatorRole (formatEvaluation known raw) = instructor <->
          exists session, findSession known (gd_session_id raw) = Some session
                          /\ createdBy session = ev))
  /\ (findSession [sample_session] (gd_session_id anonymous_rawEvaluation) = None
      /\ evaluator_id anonymous_rawEvaluation = None
      /\ evaluatorRole (formatEvaluation [sample_session] anonymous_rawEvaluation)
         = instructor)
  /\ (forall known raw claimed,
         formatEvaluation known (with_evaluator_role claimed raw)
         = formatEvaluation known raw)
  /\ (forall s u bearer rs re,
         user s = Some u -> user_id u <> "" -> truthy (authToken s) = Some bearer ->
         let s' := fst (fetchData (Resolves (Ok (Parsed rs)))
                                  (Resolves (Ok (Parsed re))) s) in
         sessions s' = map formatSession rs
         /\ evaluations s' = map (formatEvaluation (sessions s')) re)
  /\ (forall sa ea s,
         let s' := fst (fetchData sa ea s) in
         evaluations s' = evaluations s
         \/ exists rs re,
              sa = Resolves (Ok (Parsed rs)) /\ ea = Resolves (Ok (Parsed re))
              /\ sessions s' = map formatSession rs
              /\ evaluations s' = map (formatEvaluation (sessions s')) re)
  /\ (forall g t k answer sa ea s,
         let r := submitEvaluation g t k answer sa ea s in
         evaluations (fst r) = evaluations s
         \/ exists raw,
              answer = Resolves (Ok (Parsed raw))
              /\ snd r = Returned (formatEvaluation (sessions s) raw)
              /\ (evaluations (fst r)
                  = evaluations s ++ [formatEvaluation (sessions s) raw]
                  \/ exists rs re,
                       sa = Resolves (Ok (Parsed rs))
                       /\ ea = Resolves (Ok (Parsed re))
                       /\ sessions (fst r) = map formatSession rs
                       /\ evaluations (fst r)
                          = map (formatEvaluation (sessions (fst r))) re))
  /\ (forall c s,
         evaluations (after c s) = evaluations s
         \/ (exists raw, evaluations (after c s) =
                         evaluations s ++ [formatEvaluation (sessions s) raw])
         \/ (exists re, evaluations (after c s) =
                        map (formatEvaluation (sessions (after c s))) re)).
Proof.
  split; [exact formatEvaluation_role |].
  split.
  { intros known raw ev Hev. rewrite formatEvaluation_role, Hev.
    destruct (findSession known (gd_session_id raw)) as [session |]; cbn.
    - split.
      + intro H. injection H as H. now exists session.
      + intros (x & Hx & Hc). injection Hx as <-. now rewrite Hc.
    - split; [discriminate |]. intros (x & Hx & _). discriminate. }
  split; [repeat split |].
  split; [exact formatEvaluation_ignores_role |].
  split.
  { intros s u bearer rs re Hu Hid Ht.
    rewrite (fetchData_success s u bearer rs re Hu Hid Ht). cbn. split; reflexivity. }
  split.
  { intros sa ea s.
    destruct (fetchData_effect sa ea s) as (s' & E & _ & _ & _ & _ & _ & H).
    rewrite E. exact H. }
  split; [exact submitEvaluation_effect | exact evaluations_after].
Qed.

(** The record calls its evaluator an instructor; the session it names is not
    held, so the stored evaluation is a student's. *)
Example fetchData_ignores_claimed_role :
  evaluations (fst (fetchData (Resolves (Ok (Parsed [sample_rawSession])))
                              (Resolves (Ok (Parsed [orphan_rawEvaluation])))
                              student_store))
  = [mkEvaluation "e9" "gd-unknown" "s1" (Some "t1") student (mkCriteria 8 6 7 5 9)
                  (DateOf "2024-02-02")].
Proof. reflexivity. Qed.

(** C10.  What the code does when the session is not held.  An evaluation
    whose session id is the id of no session held is normalised as a
    student's when the record carries an evaluator id, and as an
    instructor's when it carries none: so it is stored by the bulk fetch,
    looked up among the sessions just fetched, and so it is returned by
    [submitEvaluation], looked up among the sessions in memory.  The last
    two parts run both paths on a record without evaluator id. *)
Theorem missing_session_role_follows_evaluator_id :
  (forall known raw,
      (forall session, In session known -> session_id session <> gd_session_id raw) ->
      evaluatorRole (formatEvaluation known raw)
      = match evaluator_id raw with
        | Some _ => student
        | None => instructor
        end)
  /\ (forall s u bearer rs re raw,
         user s = Some u -> user_id u <> "" -> truthy (authToken s) = Some bearer ->
         In raw re ->
         let s' := fst (fetchData (Resolves (Ok (Parsed rs)))
                                  (Resolves (Ok (Parsed re))) s) in
         (forall session, In session (sessions s') ->
                          session_id session <> gd_session_id raw) ->
         exists e, In e (evaluations s')
                   /\ e = formatEvaluation (sessions s') raw
                   /\ evaluatorRole e = match evaluator_id raw with
                                        | Some _ => student
                                        | None => instructor
                                        end)
  /\ (forall g t k raw sa ea s,
         user s <> None ->
         (forall session, In session (sessions s) ->
                          session_id session <> gd_session_id raw) ->
         exists e, snd (submitEvaluation g t k (Resolves (Ok (Parsed raw))) sa ea s)
                   = Returned e
                   /\ e = formatEvaluation (sessions s) raw
                   /\ evaluatorRole e = match evaluator_id raw with
                                        | Some _ => student
                                        | None => instructor
                                        end)
  /\ evaluations (fst (fetchData (Resolves (Ok (Parsed [sample_rawSession])))
                                 (Resolves (Ok (Parsed [anonymous_rawEvaluation])))
                                 student_store))
     = [mkEvaluation "e10" "gd-unknown" "s1" None instructor (mkCriteria 8 6 7 5 9)
                     (DateOf "2024-02-03")]
  /\ snd (submitEvaluation "gd-unknown" "s1" (mkCriteria 8 6 7 5 9)
            (Resolves (Ok (Parsed anonymous_rawEvaluation)))
            (Rejects "Failed to fetch") (Rejects "Failed to fetch") instructor_store)
     = Returned (mkEvaluation "e10" "gd-unknown" "s1" None instructor
                              (mkCriteria 8 6 7 5 9) (DateOf "2024-02-03")).
Proof.
  assert (Hnorm : forall known raw,
             (forall session, In session known ->
                              session_id session <> gd_session_id raw) ->
             evaluatorRole (formatEvaluation known raw)
             = match evaluator_id raw with
               | Some _ => student
               | None => instructor
               end).
  { intros known raw H. apply findSession_none in H.
    unfold formatEvaluation, isInstructor. cbn. rewrite H.
    destruct (evaluator_id raw); reflexivity. }
  split; [exact Hnorm |]. split; [| split; [| split; reflexivity]].
  - intros s u bearer rs re raw Hu Hid Ht Hin.
    rewrite (fetchData_success s u bearer rs re Hu Hid Ht). cbn. intro Hnone.
    exists (formatEvaluation (map formatSession rs) raw).
    split; [now apply in_map |]. split; [reflexivity | now apply Hnorm].
  - intros g t k raw sa ea s Hu Hnone.
    exists (formatEvaluation (sessions s) raw).
    split; [now apply submitEvaluation_returns |].
    split; [reflexivity | now apply Hnorm].
Qed.

Example submitEvaluation_missing_session :
  snd (submitEvaluation "gd-unknown" "s1" (mkCriteria 8 6 7 5 9)
         (Resolves (Ok (Parsed orphan_rawEvaluation)))
         (Rejects "Failed to fetch") (Rejects "Failed to fetch")
         (mkStore (Some sample_instructor) false [sample_session] [] false
                  (Some "token-t1") []))
  = Returned (mkEvaluation "e9" "gd-unknown" "s1" (Some "t1") student
                           (mkCriteria 8 6 7 5 9) (DateOf "2024-02-02")).
Proof. reflexivity. Qed.

(** *** The loading flags *)

Lemma auth_isLoading_down (c : Call) (s : Store) :
  provider c = AuthProvider -> auth_isLoading (after c s) = false.
Proof.
  destruct c; cbn [provider after]; try discriminate; intros _;
    run_async; reflexivity.
Qed.

Lemma gd_isLoading_kept_by_auth (c : Call) (s : Store) :
  provider c = AuthProvider -> gd_isLoading (after c s) = gd_isLoading s.
Proof.
  destruct c; cbn [provider after]; try discriminate; intros _;
    run_async; reflexivity.
Qed.

(** Between two calls the GD provider is never loading. *)
Lemma reachable_gd_idle (s : Store) : reachable s -> gd_isLoading s = false.
Proof.
  induction 1 as [stored | s c Hs IH]; [reflexivity |].
  destruct (provider c) eqn:P.
  - now rewrite gd_isLoading_kept_by_auth.
  - destruct (gd_isLoading_down_or_untouched c s P) as [H | H];
      [exact H | now rewrite H].
Qed.

(** C9.  Every method brings the loading flag of its provider down on every
    exit.  The methods of the auth provider do so in their [finally] block
    from any store.  The methods of the GD provider do so in their [finally]
    block (or, in [fetchData] without a token, just before returning) once
    they have raised the flag; when they fail their precondition first they
    touch nothing.  So after any call of an execution, however it completes,
    the flag is down. *)
Theorem isLoading_false_after_every_call :
  (forall c s, provider c = AuthProvider -> auth_isLoading (after c s) = false)
  /\ (forall c s, provider c = GDProvider ->
                  gd_isLoading (after c s) = false \/ after c s = s)
  /\ (forall c s, reachable s -> isLoading c (after c s) = false).
Proof.
  split; [exact auth_isLoading_down |].
  split; [exact gd_isLoading_down_or_untouched |].
  intros c s Hs.
  pose proof (reachable_gd_idle (after c s) (reachable_after s c Hs)) as Hgd.
  pose proof (auth_isLoading_down c s) as Hauth.
  destruct c; cbn [isLoading provider] in *; auto.
Qed.

(** A failed refresh still ends with the flag down. *)
Example fetchData_failure_resets_flag :
  gd_isLoading (fst (fetchData (Rejects "Failed to fetch") (Rejects "Failed to fetch")
                               student_store)) = false.
Proof. reflexivity. Qed.

(** * Further properties of the code *)

(** ** Score aggregation *)

Lemma sessionEvaluationsOf_app (a b : list Evaluation) (sessionId studentId' : string) :
  sessionEvaluationsOf (a ++ b) sessionId studentId'
  = sessionEvaluationsOf a sessionId studentId'
    ++ sessionEvaluationsOf b sessionId studentId'.
Proof. apply filter_app. Qed.

Lemma sessionEvaluationsOf_unrelated (l : list Evaluation)
    (sessionId studentId' : string) :
  (forall e, In e l -> gdSessionId e <> sessionId \/ studentId e <> studentId') ->
  sessionEvaluationsOf l sessionId studentId' = [].
Proof.
  intro H. apply filter_none. intros e He.
  apply andb_false_iff.
  destruct (H e He) as [N | N]; [left | right]; now apply String.eqb_neq.
Qed.

(** The result is a function of the evaluations kept. *)
Lemma calculateScores_of_kept (a b : list Evaluation) (sessionId studentId' : string) :
  sessionEvaluationsOf a sessionId studentId'
  = sessionEvaluationsOf b sessionId studentId' ->
  calculateScores a sessionId studentId' = calculateScores b sessionId studentId'.
Proof. unfold calculateScores. intros ->. reflexivity. Qed.

(** X1.  Evaluations of another session or of another student do not
    count: adding any number of them, before or after, leaves the three
    records as they were. *)
Theorem calculateScores_ignores_other_evaluations
    (evaluations others : list Evaluation) (sessionId studentId' : string) :
  (forall e, In e others -> gdSessionId e <> sessionId \/ studentId e <> studentId') ->
  calculateScores (evaluations ++ others) sessionId studentId'
  = calculateScores evaluations sessionId studentId'
  /\ calculateScores (others ++ evaluations) sessionId studentId'
     = calculateScores evaluations sessionId studentId'.
Proof.
  intro H.
  pose proof (sessionEvaluationsOf_unrelated others sessionId studentId' H) as E.
  split; apply calculateScores_of_kept; rewrite sessionEvaluationsOf_app, E.
  - apply app_nil_r.
  - reflexivity.
Qed.

Lemma calculateScores_ignores_other_evaluations_witness :
  (forall e, In e [example_instructor] -> gdSessionId e <> "gd1" \/ studentId e <> "s7")
  /\ calculateScores ([] ++ [example_instructor]) "gd1" "s7"
     = calculateScores [] "gd1" "s7".
Proof.
  assert (H : forall e, In e [example_instructor] ->
                        gdSessionId e <> "gd1" \/ studentId e <> "s7")
    by (intros e [<- | []]; right; discriminate).
  split; [exact H |].
  exact (proj1 (calculateScores_ignores_other_evaluations
                  [] [example_instructor] "gd1" "s7" H)).
Defined.

Lemma filter_andb {A : Type} (p q : A -> bool) (l : list A) :
  filter (fun x => p x && q x) l = filter q (filter p l).
Proof.
  induction l as [| x l IH]; [reflexivity |]. cbn.
  destruct (p x); cbn; [destruct (q x) |]; now rewrite IH.
Qed.

Lemma filter_narrower {A : Type} (p q : A -> bool) (l : list A) :
  (forall x, p x = true -> q x = true) ->
  filter p (filter q l) = filter p l.
Proof.
  intro H. induction l as [| x l IH]; [reflexivity |]. cbn.
  destruct (q x) eqn:Q; cbn.
  - destruct (p x); now rewrite IH.
  - destruct (p x) eqn:P; [| exact IH]. rewrite (H x P) in Q. discriminate.
Qed.

(** X2.  [calculateScores] for a session sees the collection only through
    [getEvaluationsForSession]: computing on the evaluations of the session
    gives the same records as computing on the whole collection, and the
    evaluations it keeps are those of the session that are about the
    student. *)
Theorem calculateScores_through_getEvaluationsForSession
    (evaluations : list Evaluation) (sessionId studentId' : string) :
  sessionEvaluationsOf evaluations sessionId studentId'
  = filter (fun e => String.eqb (studentId e) studentId')
           (getEvaluationsForSession evaluations sessionId)
  /\ calculateScores (getEvaluationsForSession evaluations sessionId)
                     sessionId studentId'
     = calculateScores evaluations sessionId studentId'.
Proof.
  split.
  - unfold sessionEvaluationsOf, getEvaluationsForSession. apply filter_andb.
  - apply calculateScores_of_kept.
    unfold sessionEvaluationsOf, getEvaluationsForSession.
    apply filter_narrower. intros e H. now apply andb_true_iff in H.
Qed.

(** The result depends on the evaluations kept only through whether there is
    any, the peers among them and the first instructor among them. *)
Lemma calculateScores_determined (a b : list Evaluation) (sessionId studentId' : string) :
  (sessionEvaluationsOf a sessionId studentId' = [] <->
   sessionEvaluationsOf b sessionId studentId' = []) ->
  peersOf (sessionEvaluationsOf a sessionId studentId')
  = peersOf (sessionEvaluationsOf b sessionId studentId') ->
  hd_error (instructorsOf (sessionEvaluationsOf a sessionId studentId'))
  = hd_error (instructorsOf (sessionEvaluationsOf b sessionId studentId')) ->
  calculateScores a sessionId studentId' = calculateScores b sessionId studentId'.
Proof.
  unfold calculateScores.
  destruct (sessionEvaluationsOf a sessionId studentId') as [| x xs];
    destruct (sessionEvaluationsOf b sessionId studentId') as [| y ys];
    intros Hnil Hpeers Hhd.
  - reflexivity.
  - destruct Hnil as [Hnil _]. discriminate (Hnil eq_refl).
  - destruct Hnil as [_ Hnil]. discriminate (Hnil eq_refl).
  - cbn [List.length Nat.eqb]. rewrite Hpeers.
    destruct (instructorsOf (x :: xs)) as [| i others];
      destruct (instructorsOf (y :: ys)) as [| j others']; cbn in Hhd;
      try discriminate; [reflexivity |].
    injection Hhd as ->. reflexivity.
Qed.

(** X5.  Only the first instructor evaluation counts.  Once an instructor
    evaluation of the student in the session is in the collection, an
    instructor evaluation added after it changes none of the three
    records. *)
Theorem calculateScores_later_instructor_ignored (evaluations : list Evaluation)
    (e : Evaluation) (sessionId studentId' : string) :
  evaluatorRole e = instructor ->
  instructorsOf (sessionEvaluationsOf evaluations sessionId studentId') <> [] ->
  calculateScores (evaluations ++ [e]) sessionId studentId'
  = calculateScores evaluations sessionId studentId'.
Proof.
  intros Hrole Hsome.
  assert (Hpe : peersOf [e] = []).
  { unfold peersOf. cbn. now rewrite Hrole. }
  apply calculateScores_determined; rewrite sessionEvaluationsOf_app.
  - split; intro H.
    + apply app_eq_nil in H. tauto.
    + rewrite H in Hsome. contradiction Hsome. reflexivity.
  - unfold peersOf. rewrite filter_app. fold (peersOf (sessionEvaluationsOf [e] sessionId studentId')).
    assert (Hp : peersOf (sessionEvaluationsOf [e] sessionId studentId') = []).
    { apply filter_none. intros x Hx. apply In_sessionEvaluationsOf in Hx.
      destruct Hx as ([<- | []] & _). now rewrite Hrole. }
    rewrite Hp. apply app_nil_r.
  - unfold instructorsOf at 1. rewrite filter_app.
    fold (instructorsOf (sessionEvaluationsOf evaluations sessionId studentId')).
    destruct (instructorsOf (sessionEvaluationsOf evaluations sessionId studentId'));
      [contradiction Hsome; reflexivity | reflexivity].
Qed.

Lemma calculateScores_later_instructor_ignored_witness :
  evaluatorRole example_instructor = instructor
  /\ calculateScores ([example_peer; example_instructor] ++ [example_instructor])
                     "gd1" "s1"
     = calculateScores [example_peer; example_instructor] "gd1" "s1".
Proof.
  assert (H : instructorsOf (sessionEvaluationsOf [example_peer; example_instructor]
                                                  "gd1" "s1") <> [])
    by (vm_compute; discriminate).
  split; [reflexivity |].
  exact (calculateScores_later_instructor_ignored
           [example_peer; example_instructor] example_instructor "gd1" "s1"
           eq_refl H).
Defined.

(** ** Looking sessions up *)

(** X6.  [getSessionById] returns the first session of the collection with
    the given id: every session before it has another id; and it returns
    nothing exactly when no session has the id. *)
Theorem getSessionById_first_match (known : list GDSession) (id : string) :
  match getSessionById known id with
  | Some s =>
      session_id s = id
      /\ exists earlier later,
           known = earlier ++ s :: later
           /\ forall x, In x earlier -> session_id x <> id
  | None => forall x, In x known -> session_id x <> id
  end.
Proof.
  unfold getSessionById, findSession.
  induction known as [| y l IH]; cbn.
  - intros x [].
  - destruct (String.eqb (session_id y) id) eqn:E.
    + apply String.eqb_eq in E. split; [exact E |].
      exists [], l. split; [reflexivity | intros x []].
    + apply String.eqb_neq in E.
      destruct (find (fun s => String.eqb (session_id s) id) l) as [s |].
      * destruct IH as (Hid & earlier & later & -> & Hbefore).
        split; [exact Hid |].
        exists (y :: earlier), later. split; [reflexivity |].
        intros x [<- | Hx]; [exact E | now apply Hbefore].
      * intros x [<- | Hx]; [exact E | now apply IH].
Qed.

(** X7.  A session appended to the collection, as [createSession] appends
    the one it has created, is found under its id unless an earlier session
    already has that id, which is then still the one found; lookups under
    any other id are unchanged. *)
Theorem getSessionById_after_append (known : list GDSession) (s : GDSession) :
  getSessionById (known ++ [s]) (session_id s)
  = match getSessionById known (session_id s) with
    | Some earlier => Some earlier
    | None => Some s
    end
  /\ forall id, id <> session_id s ->
                getSessionById (known ++ [s]) id = getSessionById known id.
Proof.
  unfold getSessionById, findSession. split.
  - induction known as [| y l IH]; cbn.
    + now rewrite String.eqb_refl.
    + destruct (String.eqb (session_id y) (session_id s)); [reflexivity | exact IH].
  - intros id Hid. induction known as [| y l IH]; cbn.
    + destruct (String.eqb (session_id s) id) eqn:E; [| reflexivity].
      apply String.eqb_eq in E. congruence.
    + destruct (String.eqb (session_id y) id); [reflexivity | exact IH].
Qed.

Lemma NoDup_map_injective {A B : Type} (f : A -> B) (l : list A) (a b : A) :
  NoDup (map f l) -> In a l -> In b l -> f a = f b -> a = b.
Proof.
  induction l as [| x l IH]; cbn; intros Hnd Ha Hb E; [contradiction |].
  inversion Hnd as [| ? ? Hnotin Hnd']; subst.
  destruct Ha as [<- | Ha], Hb as [<- | Hb].
  - reflexivity.
  - exfalso. apply Hnotin. rewrite E. now apply in_map.
  - exfalso. apply Hnotin. rewrite <- E. now apply in_map.
  - now apply IH.
Qed.

(** X8.  When the session ids of the collection are pairwise distinct, an
    evaluation normalised from a record that carries an evaluator id is an
    instructor's exactly when the collection holds a session with its
    session id that its evaluator created. *)
Theorem formatEvaluation_role_unique_ids (known : list GDSession)
    (raw : RawEvaluation) (ev : string) :
  NoDup (map session_id known) ->
  evaluator_id raw = Some ev ->
  (evaluatorRole (formatEvaluation known raw) = instructor <->
   exists session, In session known
                   /\ session_id session = gd_session_id raw
                   /\ createdBy session = ev).
Proof.
  intros Hnd Hev. rewrite formatEvaluation_role, Hev. unfold findSession. split.
  - destruct (find (fun s => String.eqb (session_id s) (gd_session_id raw)) known)
      as [found |] eqn:F; cbn; [| discriminate].
    intro H. injection H as H.
    apply find_some in F. destruct F as [Hin Hid]. apply String.eqb_eq in Hid.
    now exists found.
  - intros (session & Hin & Hid & Hc).
    destruct (find (fun s => String.eqb (session_id s) (gd_session_id raw)) known)
      as [found |] eqn:F; cbn.
    + apply find_some in F. destruct F as [Hin' Hid']. apply String.eqb_eq in Hid'.
      assert (found = session)
        by (apply (NoDup_map_injective session_id known); congruence).
      subst found. now rewrite Hc.
    + pose proof (find_none _ _ F session Hin) as N. cbn in N.
      apply String.eqb_neq in N. contradiction.
Qed.

Lemma formatEvaluation_role_unique_ids_witness :
  NoDup (map session_id [sample_session])
  /\ (evaluatorRole (formatEvaluation [sample_session]
                       (mkRawEvaluation "e3" "gd1" "s1" (Some "t1") None 9 9 9 9 9
                                        "2024-02-02"))
      = instructor <->
      exists session, In session [sample_session]
                      /\ session_id session = "gd1" /\ createdBy session = "t1").
Proof.
  assert (H : NoDup (map session_id [sample_session]))
    by (cbn; constructor; [intros [] | constructor]).
  split; [exact H |].
  exact (formatEvaluation_role_unique_ids [sample_session]
           (mkRawEvaluation "e3" "gd1" "s1" (Some "t1") None 9 9 9 9 9 "2024-02-02")
           "t1" H eq_refl).
Defined.

(** With two sessions under one id the first decides, so the second one's
    creator is taken for a student. *)
Example formatEvaluation_duplicate_ids :
  let second := mkSession "gd1" "Remote work" "Round two" "Alpha" 1
                          (DateOf "2024-02-08") [] [] "t2" (DateOf "2024-01-20") in
  evaluatorRole (formatEvaluation [sample_session; second]
                   (mkRawEvaluation "e4" "gd1" "s1" (Some "t2") None 9 9 9 9 9 "2024-02-09"))
  = student.
Proof. reflexivity. Qed.

(** ** The auth provider *)

(** X9.  A session check that finds a token and fails in any way (the
    transport fails, the response is not 2xx, or its body does not parse)
    removes the token, leaves the user as it was, ends with the loading flag
    down and throws nothing; it has sent the one check-session request. *)
Theorem checkSession_failure_discards_token (answer : Fetch ProfileRow)
    (s : Store) (bearer : string) :
  truthy (authToken s) = Some bearer ->
  succeeded answer = false ->
  checkSession answer s
  = (mkStore (user s) false (sessions s) (evaluations s) (gd_isLoading s) None
             (requests s ++ [CheckSessionRequest bearer]),
     Returned tt).
Proof.
  intros Ht Hfail. unfold_async. cbn. rewrite Ht. cbn.
  destruct answer as [m | [[m | p] | body]]; cbn in Hfail |- *;
    try discriminate; reflexivity.
Qed.

Lemma checkSession_failure_discards_token_witness :
  truthy (authToken stale_store) = Some "stale-token"
  /\ authToken (fst (checkSession (Rejects "Failed to fetch") stale_store)) = None.
Proof.
  assert (H : truthy (authToken stale_store) = Some "stale-token") by reflexivity.
  split; [exact H |].
  exact (f_equal (fun r => authToken (fst r))
           (checkSession_failure_discards_token (Rejects "Failed to fetch")
              stale_store "stale-token" H eq_refl)).
Defined.

(** X10.  The session check never throws and always ends with the loading
    flag down.  Without a token (none, or the empty string) it sends nothing
    and changes nothing else.  With a token and a 2xx answer that parses, the
    user becomes the profile received, the token is kept and the one request
    sent is the check; on any other answer the user is left as it was. *)
Theorem checkSession_is_silent (answer : Fetch ProfileRow) (s : Store) :
  snd (checkSession answer s) = Returned tt
  /\ auth_isLoading (fst (checkSession answer s)) = false
  /\ (truthy (authToken s) = None ->
      fst (checkSession answer s) = with_auth_isLoading false s)
  /\ (forall bearer p,
         truthy (authToken s) = Some bearer ->
         answer = Resolves (Ok (Parsed p)) ->
         fst (checkSession answer s)
         = mkStore (Some (profileToUser p)) false (sessions s) (evaluations s)
                   (gd_isLoading s) (authToken s)
                   (requests s ++ [CheckSessionRequest bearer]))
  /\ (succeeded answer = false -> user (fst (checkSession answer s)) = user s).
Proof.
  unfold_async. cbn.
  destruct (truthy (authToken s)) as [stored |] eqn:T; cbn.
  - destruct answer as [m | [[m | p] | body]]; cbn;
      (split; [reflexivity |]); (split; [reflexivity |]);
      (split; [discriminate |]);
      (split; [intros bearer p' Hb E; try discriminate | intro F; try discriminate;
                                                          reflexivity]).
    injection Hb as <-. injection E as <-. reflexivity.
  - repeat split; try reflexivity; discriminate.
Qed.

(** X11.  A login answered with a 2xx response that parses stores the
    profile received as the user and the token received in [localStorage].
    A login that fails in any other way (transport failure, non-2xx, body
    that does not parse) throws an error whose message is not empty and
    leaves the user and the token as they were.  Either way one request is
    sent and the loading flag ends down. *)
Theorem login_outcome (email password : string) (answer : Fetch LoginData)
    (s : Store) :
  match answer with
  | Resolves (Ok (Parsed userData)) =>
      login email password answer s
      = (mkStore (Some (profileToUser (profile userData))) false (sessions s)
                 (evaluations s) (gd_isLoading s) (Some (token userData))
                 (requests s ++ [LoginRequest email password]),
         Returned tt)
  | _ =>
      exists e,
        message e <> ""
        /\ login email password answer s
           = (mkStore (user s) false (sessions s) (evaluations s) (gd_isLoading s)
                      (authToken s) (requests s ++ [LoginRequest email password]),
              Thrown e)
  end.
Proof.
  destruct answer as [m | [[m | userData] | body]]; unfold_async; cbn;
    try reflexivity;
    try (unfold orString; destruct (String.eqb m "") eqn:E;
         eexists; (split; [| reflexivity]); cbn;
         [discriminate | now apply String.eqb_neq]).
  eexists. split; [| reflexivity]. discriminate.
Qed.

(** X12.  [register] has the outcomes of [login]: on a 2xx response that
    parses, the profile and the token received are stored; on any other
    answer an error with a non-empty message is thrown and the user and the
    token are left as they were. *)
Theorem register_outcome (data : RegisterData) (answer : Fetch LoginData)
    (s : Store) :
  match answer with
  | Resolves (Ok (Parsed userData)) =>
      register data answer s
      = (mkStore (Some (profileToUser (profile userData))) false (sessions s)
                 (evaluations s) (gd_isLoading s) (Some (token userData))
                 (requests s ++ [RegisterRequest data]),
         Returned tt)
  | _ =>
      exists e,
        message e <> ""
        /\ register data answer s
           = (mkStore (user s) false (sessions s) (evaluations s) (gd_isLoading s)
                      (authToken s) (requests s ++ [RegisterRequest data]),
              Thrown e)
  end.
Proof.
  destruct answer as [m | [[m | userData] | body]]; unfold_async; cbn;
    try reflexivity;
    try (unfold orString; destruct (String.eqb m "") eqn:E;
         eexists; (split; [| reflexivity]); cbn;
         [discriminate | now apply String.eqb_neq]).
  eexists. split; [| reflexivity]. discriminate.
Qed.

(** X13.  [logout] cannot fail and contacts nobody: from any store it
    returns, with no user, no token and the flag down, and without a
    request.  It does not empty the collections, and neither does the
    refresh that the change of user triggers, which returns at once for want
    of a user: the sessions and evaluations fetched for the user who left
    stay in memory. *)
Theorem logout_keeps_collections (sa : Fetch (list RawSession))
    (ea : Fetch (list RawEvaluation)) (s : Store) :
  logout s
  = (mkStore None false (sessions s) (evaluations s) (gd_isLoading s) None
             (requests s),
     Returned tt)
  /\ fetchData sa ea (fst (logout s)) = (fst (logout s), Returned tt)
  /\ sessions (fst (fetchData sa ea (fst (logout s)))) = sessions s
  /\ evaluations (fst (fetchData sa ea (fst (logout s)))) = evaluations s.
Proof.
  repeat split.
Qed.

(** X14.  [updateProfile] with nobody signed in throws "No user is logged
    in" without sending a request; only the loading flag is written. *)
Theorem updateProfile_requires_user (data : UpdateProfileData)
    (answer : Fetch ProfileRow) (s : Store) :
  user s = None ->
  updateProfile data answer s
  = (with_auth_isLoading false s, Thrown (mkError "No user is logged in")).
Proof.
  intro H. unfold_async. cbn. rewrite H. reflexivity.
Qed.

Lemma updateProfile_requires_user_witness :
  user stale_store = None
  /\ updateProfile sample_updateProfileData (Resolves (Ok (Parsed sample_profile)))
                   stale_store
     = (with_auth_isLoading false stale_store,
        Thrown (mkError "No user is logged in")).
Proof.
  split; [reflexivity |].
  exact (updateProfile_requires_user sample_updateProfileData
           (Resolves (Ok (Parsed sample_profile))) stale_store eq_refl).
Defined.

(** X15.  [updateProfile] never writes the token.  When it succeeds the user
    becomes the profile received, whatever its fields were before: the
    response replaces the user, it is not merged into it.  When it fails the
    user is left as it was and the error thrown has a non-empty message. *)
Theorem updateProfile_outcome (data : UpdateProfileData)
    (answer : Fetch ProfileRow) (s : Store) :
  authToken (fst (updateProfile data answer s)) = authToken s
  /\ match user s, answer with
     | Some _, Resolves (Ok (Parsed updatedUser)) =>
         snd (updateProfile data answer s) = Returned tt
         /\ user (fst (updateProfile data answer s))
            = Some (profileToUser updatedUser)
     | _, _ =>
         user (fst (updateProfile data answer s)) = user s
         /\ exists e, message e <> ""
                      /\ snd (updateProfile data answer s) = Thrown e
     end.
Proof.
  destruct s as [cu al ss es gl tok rq]. unfold_async. cbn.
  destruct cu as [u |]; cbn;
    [destruct answer as [m | [[m | p] | body]]; cbn |];
    (split; [reflexivity |]); try (split; reflexivity);
    (split; [reflexivity |]);
    try (unfold orString; destruct (String.eqb m "") eqn:E;
         eexists; (split; [| reflexivity]); cbn;
         [discriminate | now apply String.eqb_neq]);
    eexists; (split; [| reflexivity]); discriminate.
Qed.

Lemma profileToUser_optional_fields (p : ProfileRow) :
  optionalFieldsNonEmpty (profileToUser p).
Proof.
  assert (H : forall x, orUndefined x <> Some "").
  { intros [x |]; cbn; [| discriminate].
    destruct (String.eqb x "") eqn:E; [discriminate |].
    apply String.eqb_neq in E. congruence. }
  unfold optionalFieldsNonEmpty, profileToUser. cbn. repeat split; apply H.
Qed.

(** The user after a call is the user before, nobody, or a profile received. *)
Lemma user_after (c : Call) (s : Store) :
  user (after c s) = user s
  \/ user (after c s) = None
  \/ exists p, user (after c s) = Some (profileToUser p).
Proof.
  destruct c; cbn [after]; run_async; try (left; congruence); eauto.
Qed.

(** X16.  Whoever is signed in, none of the optional fields of the user
    (department, section, year, roll number, designation) is the empty
    string: a user only ever comes from [profileToUser], which turns empty
    and null columns alike into absent fields. *)
Theorem reachable_user_optional_fields (s : Store) (u : User) :
  reachable s -> user s = Some u -> optionalFieldsNonEmpty u.
Proof.
  intro H. revert u.
  induction H as [stored | s c Hs IH]; intros u Hu; [discriminate |].
  destruct (user_after c s) as [E | [E | (p & E)]]; rewrite E in Hu.
  - now apply IH.
  - discriminate.
  - injection Hu as <-. apply profileToUser_optional_fields.
Qed.

Lemma reachable_user_optional_fields_witness :
  reachable (after (Login "asha@example.org" "secret"
                          (Resolves (Ok (Parsed sample_loginData))))
                   (initialStore None))
  /\ section (profileToUser sample_profile) = None
  /\ optionalFieldsNonEmpty (profileToUser sample_profile).
Proof.
  assert (H : reachable (after (Login "asha@example.org" "secret"
                                      (Resolves (Ok (Parsed sample_loginData))))
                               (initialStore None)))
    by (apply reachable_after, reachable_initial).
  split; [exact H |]. split; [reflexivity |].
  exact (reachable_user_optional_fields _ (profileToUser sample_profile) H eq_refl).
Defined.

(** X17.  The two providers keep to their own state.  No method of the auth
    provider changes the sessions, the evaluations or the loading flag of
    the GD provider; no method of the GD provider changes the user, the
    stored token or the loading flag of the auth provider. *)
Theorem providers_do_not_interfere (c : Call) (s : Store) :
  match provider c with
  | AuthProvider =>
      sessions (after c s) = sessions s
      /\ evaluations (after c s) = evaluations s
      /\ gd_isLoading (after c s) = gd_isLoading s
  | GDProvider =>
      user (after c s) = user s
      /\ authToken (after c s) = authToken s
      /\ auth_isLoading (after c s) = auth_isLoading s
  end.
Proof.
  destruct c; cbn [provider after]; run_async; repeat split; congruence.
Qed.

(** X18.  The request log only grows, and by little: a method of the auth
    provider sends at most one request, [fetchData] at most two, and
    [createSession] and [submitEvaluation] at most three (their own and the
    two of the refresh). *)
Theorem requests_only_appended (c : Call) (s : Store) :
  exists sent,
    requests (after c s) = requests s ++ sent
    /\ (List.length sent <=
        match c with
        | FetchData _ _ => 2
        | CreateSession _ _ _ _ | SubmitEvaluation _ _ _ _ _ _ => 3
        | _ => 1
        end)%nat.
Proof.
  destruct c; cbn [after]; run_async; rewrite <- ?app_assoc;
    first
      [ exists []; split; [symmetry; apply app_nil_r | cbn; lia]
      | eexists; split; [reflexivity | cbn; lia] ].
Qed.

(** ** The GD provider *)

(** X19.  [fetchData] needs a user with an id and a stored token: when
    nobody is signed in, when the user's id is empty, or when no token (or
    an empty one) is stored, it returns without sending a request and
    without touching the sessions or the evaluations. *)
Theorem fetchData_needs_user_and_token (sa : Fetch (list RawSession))
    (ea : Fetch (list RawEvaluation)) (s : Store) :
  user s = None
  \/ (exists u, user s = Some u /\ user_id u = "")
  \/ truthy (authToken s) = None ->
  snd (fetchData sa ea s) = Returned tt
  /\ requests (fst (fetchData sa ea s)) = requests s
  /\ sessions (fst (fetchData sa ea s)) = sessions s
  /\ evaluations (fst (fetchData sa ea s)) = evaluations s.
Proof.
  intro H. unfold_async. cbn.
  destruct (user s) as [u |] eqn:U; [| repeat split].
  destruct (String.eqb (user_id u) "") eqn:E; cbn; [repeat split |].
  apply String.eqb_neq in E.
  destruct H as [H | [(u' & H & Hid) | H]].
  - discriminate.
  - congruence.
  - rewrite H. repeat split.
Qed.

Lemma fetchData_needs_user_and_token_witness :
  user stale_store = None
  /\ requests (fst (fetchData (Resolves (Ok (Parsed [sample_rawSession])))
                              (Resolves (Ok (Parsed []))) stale_store)) = [].
Proof.
  split; [reflexivity |].
  exact (proj1 (proj2 (fetchData_needs_user_and_token
                         (Resolves (Ok (Parsed [sample_rawSession])))
                         (Resolves (Ok (Parsed []))) stale_store
                         (or_introl eq_refl)))).
Defined.

(** X20.  A refresh that fails keeps what is in memory, and fails quietly.
    If the sessions cannot be fetched, the evaluations are not asked for and
    both collections stay as they were.  If the sessions are fetched and the
    evaluations are not, the sessions are replaced and the evaluations stay
    as they were, normalised against the sessions held before.  In both
    cases [fetchData] returns normally with the flag down. *)
Theorem fetchData_failure_keeps_stale_data (sa : Fetch (list RawSession))
    (ea : Fetch (list RawEvaluation)) (s : Store) (u : User) (bearer : string) :
  user s = Some u -> user_id u <> "" -> truthy (authToken s) = Some bearer ->
  (succeeded sa = false ->
   fetchData sa ea s
   = (mkStore (user s) (auth_isLoading s) (sessions s) (evaluations s) false
              (authToken s) (requests s ++ [SessionsRequest bearer]),
      Returned tt))
  /\ (forall rs, sa = Resolves (Ok (Parsed rs)) -> succeeded ea = false ->
      fetchData sa ea s
      = (mkStore (user s) (auth_isLoading s) (map formatSession rs) (evaluations s)
                 false (authToken s)
                 ((requests s ++ [SessionsRequest bearer])
                  ++ [EvaluationsRequest bearer]),
         Returned tt)).
Proof.
  intros Hu Hid Ht. apply String.eqb_neq in Hid.
  destruct s as [cu al ss es gl tok rq]. cbn in Hu, Ht |- *. subst cu.
  unfold_async. cbn. rewrite Hid. cbn. rewrite Ht. split.
  - intro Hfail.
    destruct sa as [m | [[m | rs] | [m | err]]]; cbn in Hfail |- *;
      try discriminate; reflexivity.
  - intros rs -> Hfail. cbn.
    destruct ea as [m | [[m | re] | [m | err]]]; cbn in Hfail |- *;
      try discriminate; reflexivity.
Qed.

Lemma fetchData_failure_keeps_stale_data_witness :
  user instructor_store = Some sample_instructor
  /\ sessions (fst (fetchData (Rejects "Failed to fetch") (Rejects "Failed to fetch")
                              instructor_store)) = [sample_session].
Proof.
  split; [reflexivity |].
  assert (Hid : user_id sample_instructor <> "") by discriminate.
  exact (f_equal (fun r => sessions (fst r))
           (proj1 (fetchData_failure_keeps_stale_data
                     (Rejects "Failed to fetch") (Rejects "Failed to fetch")
                     instructor_store sample_instructor "token-t1"
                     eq_refl Hid eq_refl) eq_refl)).
Defined.

(** X21.  A refresh repeated with the same answers settles: the second run
    leaves the sessions, the evaluations and the loading flag as the first
    run left them. *)
Theorem fetchData_twice (sa : Fetch (list RawSession))
    (ea : Fetch (list RawEvaluation)) (s : Store) :
  sessions (fst (fetchData sa ea (fst (fetchData sa ea s))))
  = sessions (fst (fetchData sa ea s))
  /\ evaluations (fst (fetchData sa ea (fst (fetchData sa ea s))))
     = evaluations (fst (fetchData sa ea s))
  /\ gd_isLoading (fst (fetchData sa ea (fst (fetchData sa ea s))))
     = gd_isLoading (fst (fetchData sa ea s)).
Proof.
  destruct s as [cu al ss es gl tok rq].
  destruct cu as [u |]; [| repeat split].
  unfold_async. cbn.
  destruct (String.eqb (user_id u) "") eqn:E; cbn; rewrite ?E; cbn;
    [repeat split |].
  destruct (truthy tok) as [bearer |] eqn:T; cbn; rewrite ?E; cbn; rewrite ?T; cbn;
    [| repeat split].
  destruct sa as [m | [[m | rs] | [m | err]]]; cbn; rewrite ?E; cbn; rewrite ?T;
    cbn; try (repeat split; fail);
    destruct ea as [m' | [[m' | re] | [m' | err']]]; cbn; rewrite ?E; cbn;
    rewrite ?T; cbn; repeat split.
Qed.

(** X22.  An instructor whose request is answered with a 2xx response that
    parses gets the session created back, whatever becomes of the refresh
    that follows, and the flag ends down.  The creation is the first request
    sent and carries the stored token (none if there is none); the refresh
    runs when the user has an id and a token is stored, asking for the
    sessions and, if they come, for the evaluations.  Afterwards the
    sessions in memory are exactly the sessions fetched if the refresh
    fetched them, and otherwise those held before followed by the new one;
    the evaluations are exactly those fetched if the refresh fetched both
    lists, and otherwise those held before. *)
Theorem createSession_success (sessionData : SessionData) (raw : RawSession)
    (sa : Fetch (list RawSession)) (ea : Fetch (list RawEvaluation))
    (s : Store) (u : User) (isoDate : string) :
  user s = Some u -> user_role u = instructor ->
  data_date sessionData = DateOf isoDate ->
  let r := createSession sessionData (Resolves (Ok (Parsed raw))) sa ea s in
  let refresh := if String.eqb (user_id u) "" then None else truthy (authToken s) in
  snd r = Returned (formatSession raw)
  /\ gd_isLoading (fst r) = false
  /\ requests (fst r)
     = requests s
       ++ CreateSessionRequest (authToken s) sessionData isoDate
          :: match refresh with
             | None => []
             | Some bearer =>
                 SessionsRequest bearer
                 :: (if succeeded sa then [EvaluationsRequest bearer] else [])
             end
  /\ sessions (fst r)
     = match refresh, sa with
       | Some _, Resolves (Ok (Parsed rs)) => map formatSession rs
       | _, _ => sessions s ++ [formatSession raw]
       end
  /\ evaluations (fst r)
     = match refresh, sa, ea with
       | Some _, Resolves (Ok (Parsed rs)), Resolves (Ok (Parsed re)) =>
           map (formatEvaluation (map formatSession rs)) re
       | _, _, _ => evaluations s
       end.
Proof.
  intros Hu Hrole Hdate.
  destruct s as [cu al ss es gl tok rq]. cbn in Hu |- *. subst cu.
  unfold_async. cbn. rewrite Hrole, Hdate. cbn.
  destruct (String.eqb (user_id u) ""); cbn; [repeat split |].
  destruct (truthy tok) as [bearer |]; cbn; [| repeat split].
  destruct sa as [m | [[m | rs] | [m | err]]]; cbn;
    try (repeat split; rewrite <- ?app_assoc; reflexivity).
  destruct ea as [m | [[m | re] | [m | err]]]; cbn;
    repeat split; rewrite <- ?app_assoc; reflexivity.
Qed.

Lemma createSession_success_witness :
  user instructor_store = Some sample_instructor
  /\ sessions (fst (createSession sample_sessionData
                      (Resolves (Ok (Parsed sample_rawSession)))
                      (Resolves (Ok (Parsed []))) (Rejects "Failed to fetch")
                      instructor_store))
     = [].
Proof.
  split; [reflexivity |].
  exact (proj1 (proj2 (proj2 (proj2
    (createSession_success sample_sessionData sample_rawSession
       (Resolves (Ok (Parsed []))) (Rejects "Failed to fetch")
       instructor_store sample_instructor "2024-02-01"
       eq_refl eq_refl eq_refl))))).
Defined.

(** X23.  An instructor whose request fails (the transport fails, the
    response is not 2xx, or a body does not parse) gets an error thrown, the
    flag ends down, the sessions and the evaluations are as before and no
    refresh is attempted: the one request sent is the creation, carrying the
    stored token.  On a non-2xx response whose body parses, the message is
    the [error] field of the body, or "Failed to create session" when that
    field is missing or empty. *)
Theorem createSession_failure (sessionData : SessionData) (answer : Fetch RawSession)
    (sa : Fetch (list RawSession)) (ea : Fetch (list RawEvaluation))
    (s : Store) (u : User) (isoDate : string) :
  user s = Some u -> user_role u = instructor ->
  data_date sessionData = DateOf isoDate ->
  succeeded answer = false ->
  exists e,
    createSession sessionData answer sa ea s
    = (mkStore (user s) (auth_isLoading s) (sessions s) (evaluations s) false
               (authToken s)
               (requests s ++ [CreateSessionRequest (authToken s) sessionData isoDate]),
       Thrown e)
    /\ forall err, answer = Resolves (NotOk (Parsed (mkErrorData err))) ->
                   message e = orDefault err "Failed to create session".
Proof.
  intros Hu Hrole Hdate Hfail.
  destruct s as [cu al ss es gl tok rq]. cbn in Hu |- *. subst cu.
  unfold_async. cbn. rewrite Hrole, Hdate. cbn.
  destruct answer as [m | [[m | raw] | [m | [err]]]]; cbn in Hfail |- *;
    try discriminate;
    eexists; (split; [reflexivity |]); intros err' E; try discriminate.
  injection E as <-. reflexivity.
Qed.

Lemma createSession_failure_witness :
  user instructor_store = Some sample_instructor
  /\ exists e,
       createSession sample_sessionData
         (Resolves (NotOk (Parsed (mkErrorData (Some "Group already exists")))))
         (Resolves (Ok (Parsed []))) (Resolves (Ok (Parsed []))) instructor_store
       = (mkStore (Some sample_instructor) false [sample_session] [] false
                  (Some "token-t1")
                  [CreateSessionRequest (Some "token-t1") sample_sessionData
                                        "2024-02-01"],
          Thrown e)
       /\ forall err,
            Resolves (NotOk (Parsed (mkErrorData (Some "Group already exists"))))
            = Resolves (A := RawSession) (NotOk (Parsed (mkErrorData err))) ->
            message e = orDefault err "Failed to create session".
Proof.
  split; [reflexivity |].
  exact (createSession_failure sample_sessionData
           (Resolves (NotOk (Parsed (mkErrorData (Some "Group already exists")))))
           (Resolves (Ok (Parsed []))) (Resolves (Ok (Parsed []))) instructor_store
           sample_instructor "2024-02-01" eq_refl eq_refl eq_refl eq_refl).
Defined.

(** X24.  With an invalid date the creation throws before anything is sent:
    [toISOString] fails while the request is being built, the sessions and
    the evaluations are as before and the flag ends down. *)
Theorem createSession_invalid_date (sessionData : SessionData)
    (answer : Fetch RawSession) (sa : Fetch (list RawSession))
    (ea : Fetch (list RawEvaluation)) (s : Store) (u : User) :
  user s = Some u -> user_role u = instructor ->
  data_date sessionData = InvalidDate ->
  exists e,
    createSession sessionData answer sa ea s
    = (mkStore (user s) (auth_isLoading s) (sessions s) (evaluations s) false
               (authToken s) (requests s),
       Thrown e).
Proof.
  intros Hu Hrole Hdate.
  destruct s as [cu al ss es gl tok rq]. cbn in Hu |- *. subst cu.
  unfold_async. cbn. rewrite Hrole, Hdate. cbn. eexists. reflexivity.
Qed.

Lemma createSession_invalid_date_witness :
  user instructor_store = Some sample_instructor
  /\ exists e,
       createSession (mkSessionData "Remote work" "" "Alpha" 1 InvalidDate [] [])
         (Resolves (Ok (Parsed sample_rawSession)))
         (Resolves (Ok (Parsed []))) (Resolves (Ok (Parsed []))) instructor_store
       = (instructor_store, Thrown e).
Proof.
  split; [reflexivity |].
  exact (createSession_invalid_date
           (mkSessionData "Remote work" "" "Alpha" 1 InvalidDate [] [])
           (Resolves (Ok (Parsed sample_rawSession)))
           (Resolves (Ok (Parsed []))) (Resolves (Ok (Parsed []))) instructor_store
           sample_instructor eq_refl eq_refl eq_refl).
Defined.

(** X25.  [submitEvaluation] with nobody signed in throws "You must be
    logged in to submit an evaluation" at once: nothing is sent and the
    store is left as it was. *)
Theorem submitEvaluation_requires_user (g t : string) (k : EvaluationCriteria)
    (answer : Fetch RawEvaluation) (sa : Fetch (list RawSession))
    (ea : Fetch (list RawEvaluation)) (s : Store) :
  user s = None ->
  submitEvaluation g t k answer sa ea s
  = (s, Thrown (mkError "You must be logged in to submit an evaluation")).
Proof.
  intro H. unfold_async. cbn. rewrite H. reflexivity.
Qed.

Lemma submitEvaluation_requires_user_witness :
  user stale_store = None
  /\ submitEvaluation "gd1" "s1" (mkCriteria 8 6 7 5 9)
       (Resolves (Ok (Parsed orphan_rawEvaluation)))
       (Resolves (Ok (Parsed []))) (Resolves (Ok (Parsed []))) stale_store
     = (stale_store, Thrown (mkError "You must be logged in to submit an evaluation")).
Proof.
  split; [reflexivity |].
  exact (submitEvaluation_requires_user "gd1" "s1" (mkCriteria 8 6 7 5 9)
           (Resolves (Ok (Parsed orphan_rawEvaluation)))
           (Resolves (Ok (Parsed []))) (Resolves (Ok (Parsed []))) stale_store
           eq_refl).
Defined.

(** X26.  A signed-in user whose submission fails (the transport fails, the
    response is not 2xx, or a body does not parse) gets an error thrown, the
    flag ends down, the evaluations and the sessions are as before and no
    refresh is attempted.  The submission is sent whether or not a token is
    stored, carrying the stored token if any; on a non-2xx response whose
    body parses the message is its [error] field, or "Failed to submit
    evaluation" when that field is missing or empty. *)
Theorem submitEvaluation_failure (g t : string) (k : EvaluationCriteria)
    (answer : Fetch RawEvaluation) (sa : Fetch (list RawSession))
    (ea : Fetch (list RawEvaluation)) (s : Store) (u : User) :
  user s = Some u ->
  succeeded answer = false ->
  exists e,
    submitEvaluation g t k answer sa ea s
    = (mkStore (user s) (auth_isLoading s) (sessions s) (evaluations s) false
               (authToken s)
               (requests s ++ [SubmitEvaluationRequest (authToken s) g t k]),
       Thrown e)
    /\ forall err, answer = Resolves (NotOk (Parsed (mkErrorData err))) ->
                   message e = orDefault err "Failed to submit evaluation".
Proof.
  intros Hu Hfail.
  destruct s as [cu al ss es gl tok rq]. cbn in Hu |- *. subst cu.
  unfold_async. cbn.
  destruct answer as [m | [[m | raw] | [m | [err]]]]; cbn in Hfail |- *;
    try discriminate;
    eexists; (split; [reflexivity |]); intros err' E; try discriminate.
  injection E as <-. reflexivity.
Qed.

Lemma submitEvaluation_failure_witness :
  user student_store = Some sample_student
  /\ exists e,
       submitEvaluation "gd1" "s2" (mkCriteria 8 6 7 5 9) (Rejects "Failed to fetch")
         (Resolves (Ok (Parsed []))) (Resolves (Ok (Parsed []))) student_store
       = (mkStore (Some sample_student) false [] [] false (Some "token-s1")
                  [SubmitEvaluationRequest (Some "token-s1") "gd1" "s2"
                                           (mkCriteria 8 6 7 5 9)],
          Thrown e)
       /\ forall err,
            Rejects "Failed to fetch"
            = Resolves (A := RawEvaluation) (NotOk (Parsed (mkErrorData err))) ->
            message e = orDefault err "Failed to submit evaluation".
Proof.
  split; [reflexivity |].
  exact (submitEvaluation_failure "gd1" "s2" (mkCriteria 8 6 7 5 9)
           (Rejects "Failed to fetch")
           (Resolves (Ok (Parsed []))) (Resolves (Ok (Parsed []))) student_store
           sample_student eq_refl eq_refl).
Defined.

(** ** Methods one after the other *)

Lemma findSession_app_new (known : list GDSession) (s : GDSession) :
  (forall x, In x known -> session_id x <> session_id s) ->
  findSession (known ++ [s]) (session_id s) = Some s.
Proof.
  intro H. unfold findSession. induction known as [| y l IH]; cbn.
  - now rewrite String.eqb_refl.
  - destruct (String.eqb (session_id y) (session_id s)) eqn:E.
    + apply String.eqb_eq in E. exfalso. apply (H y); [now left | exact E].
    + apply IH. intros x Hx. apply H. now right.
Qed.

(** When the refresh cannot fetch the sessions, a successful creation leaves
    the new session appended. *)
Lemma createSession_appends (sessionData : SessionData) (raw : RawSession)
    (sa : Fetch (list RawSession)) (ea : Fetch (list RawEvaluation))
    (s : Store) (u : User) (isoDate : string) :
  user s = Some u -> user_role u = instructor ->
  data_date sessionData = DateOf isoDate ->
  succeeded sa = false ->
  sessions (fst (createSession sessionData (Resolves (Ok (Parsed raw))) sa ea s))
  = sessions s ++ [formatSession raw]
  /\ user (fst (createSession sessionData (Resolves (Ok (Parsed raw))) sa ea s))
     = Some u.
Proof.
  intros Hu Hrole Hdate Hfail.
  destruct s as [cu al ss es gl tok rq]. cbn in Hu |- *. subst cu.
  unfold_async. cbn. rewrite Hrole, Hdate. cbn.
  destruct (String.eqb (user_id u) ""); cbn; [split; reflexivity |].
  destruct (truthy tok) as [bearer |]; cbn; [| split; reflexivity].
  destruct sa as [m | [[m | rs] | [m | err]]]; cbn in Hfail |- *;
    try discriminate; split; reflexivity.
Qed.

(** X27.  An instructor who creates a session and then evaluates in it is
    recorded as an instructor without waiting for the backend's list.  If
    the id of the new session is not yet in the collection and the refresh
    after the creation cannot fetch the sessions, the new session is found
    under its id, and an evaluation submitted next, which the backend
    answers with that session id and with the session's creator as
    evaluator, comes back with role instructor. *)
Theorem instructor_evaluates_created_session (sessionData : SessionData)
    (rawSession : RawSession) (rawEvaluation : RawEvaluation)
    (sa sa' : Fetch (list RawSession)) (ea ea' : Fetch (list RawEvaluation))
    (g t : string) (k : EvaluationCriteria) (s : Store) (u : User)
    (isoDate : string) :
  user s = Some u -> user_role u = instructor ->
  data_date sessionData = DateOf isoDate ->
  succeeded sa = false ->
  (forall x, In x (sessions s) -> session_id x <> raw_id rawSession) ->
  gd_session_id rawEvaluation = raw_id rawSession ->
  evaluator_id rawEvaluation = Some (created_by rawSession) ->
  getSessionById
    (sessions (fst (createSession sessionData (Resolves (Ok (Parsed rawSession)))
                                  sa ea s)))
    (raw_id rawSession)
  = Some (formatSession rawSession)
  /\ exists e,
       snd (submitEvaluation g t k (Resolves (Ok (Parsed rawEvaluation))) sa' ea'
              (fst (createSession sessionData (Resolves (Ok (Parsed rawSession)))
                                  sa ea s)))
       = Returned e
       /\ evaluatorRole e = instructor.
Proof.
  intros Hu Hrole Hdate Hfail Hnew Hsid Hev.
  destruct (createSession_appends sessionData rawSession sa ea s u isoDate
              Hu Hrole Hdate Hfail) as [Hsessions Huser].
  assert (Hfind : findSession (sessions s ++ [formatSession rawSession])
                              (raw_id rawSession)
                  = Some (formatSession rawSession))
    by (apply (findSession_app_new (sessions s) (formatSession rawSession)); exact Hnew).
  split.
  - unfold getSessionById. rewrite Hsessions. exact Hfind.
  - eexists. split.
    + apply submitEvaluation_returns. rewrite Huser. discriminate.
    + apply formatEvaluation_role. rewrite Hsessions, Hsid, Hfind, Hev.
      reflexivity.
Qed.

Lemma instructor_evaluates_created_session_witness :
  user (mkStore (Some sample_instructor) false [] [] false (Some "token-t1") [])
  = Some sample_instructor
  /\ exists e,
       snd (submitEvaluation "gd1" "s1" (mkCriteria 9 9 9 9 9)
              (Resolves (Ok (Parsed
                 (mkRawEvaluation "e3" "gd1" "s1" (Some "t1") None 9 9 9 9 9 "2024-02-02"))))
              (Rejects "Failed to fetch") (Rejects "Failed to fetch")
              (fst (createSession sample_sessionData
                      (Resolves (Ok (Parsed sample_rawSession)))
                      (Rejects "Failed to fetch") (Rejects "Failed to fetch")
                      (mkStore (Some sample_instructor) false [] [] false
                               (Some "token-t1") []))))
       = Returned e
       /\ evaluatorRole e = instructor.
Proof.
  split; [reflexivity |].
  assert (Hnew : forall x : GDSession, In x [] -> session_id x <> raw_id sample_rawSession)
    by (intros x []).
  exact (proj2 (instructor_evaluates_created_session sample_sessionData
                  sample_rawSession
                  (mkRawEvaluation "e3" "gd1" "s1" (Some "t1") None 9 9 9 9 9 "2024-02-02")
                  (Rejects "Failed to fetch") (Rejects "Failed to fetch")
                  (Rejects "Failed to fetch") (Rejects "Failed to fetch")
                  "gd1" "s1" (mkCriteria 9 9 9 9 9)
                  (mkStore (Some sample_instructor) false [] [] false
                           (Some "token-t1") [])
                  sample_instructor "2024-02-01"
                  eq_refl eq_refl eq_refl eq_refl Hnew eq_refl eq_refl)).
Defined.

(** X28.  The token received at login is the bearer of the refresh that
    follows.  After a successful login that brought a user id and a token,
    neither empty, a refresh answered with two 2xx responses that parse
    asks for the sessions and then for the evaluations under that token and
    loads both collections. *)
Theorem login_then_fetchData (email password : string) (userData : LoginData)
    (rs : list RawSession) (re : list RawEvaluation) (s : Store) :
  profile_id (profile userData) <> "" -> token userData <> "" ->
  fetchData (Resolves (Ok (Parsed rs))) (Resolves (Ok (Parsed re)))
            (fst (login email password (Resolves (Ok (Parsed userData))) s))
  = (mkStore (Some (profileToUser (profile userData))) false
             (map formatSession rs)
             (map (formatEvaluation (map formatSession rs)) re) false
             (Some (token userData))
             (((requests s ++ [LoginRequest email password])
               ++ [SessionsRequest (token userData)])
              ++ [EvaluationsRequest (token userData)]),
     Returned tt).
Proof.
  intros Hid Htok.
  assert (Ht : truthy (Some (token userData)) = Some (token userData)).
  { cbn. apply String.eqb_neq in Htok. now rewrite Htok. }
  rewrite (fetchData_success _ (profileToUser (profile userData)) (token userData)
             rs re); [reflexivity | reflexivity | exact Hid | exact Ht].
Qed.

Lemma login_then_fetchData_witness :
  profile_id (profile sample_loginData) <> ""
  /\ sessions (fst (fetchData (Resolves (Ok (Parsed [sample_rawSession])))
                              (Resolves (Ok (Parsed [])))
                              (fst (login "asha@example.org" "secret"
                                      (Resolves (Ok (Parsed sample_loginData)))
                                      (initialStore None)))))
     = [formatSession sample_rawSession].
Proof.
  assert (Hid : profile_id (profile sample_loginData) <> "") by discriminate.
  assert (Htok : token sample_loginData <> "") by discriminate.
  split; [exact Hid |].
  exact (f_equal (fun r => sessions (fst r))
           (login_then_fetchData "asha@example.org" "secret" sample_loginData
              [sample_rawSession] [] (initialStore None) Hid Htok)).
Defined.

(** A login that brings an empty token signs the user in, and the refresh
    that follows sends nothing. *)
Example login_with_empty_token :
  let s := fst (login "asha@example.org" "secret"
                  (Resolves (Ok (Parsed (mkLoginData sample_profile ""))))
                  (initialStore None)) in
  user s = Some (profileToUser sample_profile)
  /\ requests (fst (fetchData (Resolves (Ok (Parsed [sample_rawSession])))
                              (Resolves (Ok (Parsed []))) s))
     = [LoginRequest "asha@example.org" "secret"].
Proof. split; reflexivity. Qed.

(** X29.  An evaluation that was submitted is found among the evaluations
    of its session.  When the submission succeeds and the refresh after it
    cannot fetch the sessions, the evaluations of the session named in the
    response are those held before followed by the evaluation returned; it
    is filed under the session id of the response, whatever id was
    submitted. *)
Theorem submitEvaluation_then_getEvaluationsForSession (g t : string)
    (k : EvaluationCriteria) (raw : RawEvaluation)
    (sa : Fetch (list RawSession)) (ea : Fetch (list RawEvaluation))
    (s : Store) (u : User) :
  user s = Some u ->
  succeeded sa = false ->
  getEvaluationsForSession
    (evaluations (fst (submitEvaluation g t k (Resolves (Ok (Parsed raw))) sa ea s)))
    (gd_session_id raw)
  = getEvaluationsForSession (evaluations s) (gd_session_id raw)
    ++ [formatEvaluation (sessions s) raw].
Proof.
  intros Hu Hfail.
  assert (E : evaluations (fst (submitEvaluation g t k (Resolves (Ok (Parsed raw)))
                                                 sa ea s))
              = evaluations s ++ [formatEvaluation (sessions s) raw]).
  { destruct s as [cu al ss es gl tok rq]. cbn in Hu |- *. subst cu.
    unfold_async. cbn.
    destruct (String.eqb (user_id u) ""); cbn; [reflexivity |].
    destruct (truthy tok) as [bearer |]; cbn; [| reflexivity].
    destruct sa as [m | [[m | rs] | [m | err]]]; cbn in Hfail |- *;
      try discriminate; reflexivity. }
  rewrite E. unfold getEvaluationsForSession. rewrite filter_app. cbn.
  now rewrite String.eqb_refl.
Qed.

Lemma submitEvaluation_then_getEvaluationsForSession_witness :
  user student_store = Some sample_student
  /\ getEvaluationsForSession
       (evaluations (fst (submitEvaluation "gd1" "s2" (mkCriteria 8 6 7 5 9)
                            (Resolves (Ok (Parsed orphan_rawEvaluation)))
                            (Rejects "Failed to fetch") (Rejects "Failed to fetch")
                            student_store)))
       "gd-unknown"
     = [formatEvaluation [] orphan_rawEvaluation].
Proof.
  split; [reflexivity |].
  exact (submitEvaluation_then_getEvaluationsForSession "gd1" "s2"
           (mkCriteria 8 6 7 5 9) orphan_rawEvaluation
           (Rejects "Failed to fetch") (Rejects "Failed to fetch")
           student_store sample_student eq_refl eq_refl).
Defined.
